(** * RBAC engine of Agento: the permission checker, role assignment and
      permission seeding of docs/RBAC.md, embedded and verified.

    The embedded code is the Python of docs/RBAC.md ([RBACManager],
    [require_permission], [seed_permissions], [DEFAULT_PERMISSIONS]) over the
    PostgreSQL schema of the same file.  SQL is evaluated with its
    three-valued logic, the SQLAlchemy session with its staged objects, its
    open transaction and the committed database. *)

From Stdlib Require Import List String Ascii ZArith NArith Bool Arith Lia.
Import ListNotations.
Local Open Scope string_scope.
Local Open Scope list_scope.

(** ** SQL values and three-valued logic *)

Module SQL.

(** A nullable column is an [option]; [None] is NULL.  A condition is
    TRUE, FALSE or UNKNOWN ([None]). *)
Definition cond := option bool.

Definition and3 (a b : cond) : cond :=
  match a, b with
  | Some false, _ | _, Some false => Some false
  | Some true, Some true => Some true
  | _, _ => None
  end.

Definition or3 (a b : cond) : cond :=
  match a, b with
  | Some true, _ | _, Some true => Some true
  | Some false, Some false => Some false
  | _, _ => None
  end.

(** [x = y] on nullable values: UNKNOWN as soon as one side is NULL. *)
Definition eq3 {A} (eqb : A -> A -> bool) (x y : option A) : cond :=
  match x, y with
  | Some a, Some b => Some (eqb a b)
  | _, _ => None
  end.

(** [x > y]. *)
Definition gt3 (x y : option Z) : cond :=
  match x, y with
  | Some a, Some b => Some (Z.ltb b a)
  | _, _ => None
  end.

(** [x IS NULL] is never UNKNOWN. *)
Definition is_null {A} (x : option A) : cond :=
  Some (match x with None => true | Some _ => false end).

(** A WHERE or ON clause keeps a row only when its condition is TRUE. *)
Definition holds (c : cond) : bool :=
  match c with Some true => true | _ => false end.

End SQL.

Infix "&&&" := SQL.and3 (at level 40, left associativity).
Infix "|||" := SQL.or3 (at level 50, left associativity).

(** ** The schema *)

(** UUID columns hold opaque 128-bit tokens; the [str] arguments of the
    Python methods are their textual form. *)
Definition uuid := N.
Definition timestamp := Z.

(** Columns declared [NOT NULL] or [PRIMARY KEY] are plain values, every
    other column is nullable. *)

Record User := {
  u_id : uuid;
  u_email : string;
  u_username : string;
  u_is_active : option bool;
  u_is_verified : option bool;
  u_is_system_user : option bool;
  u_organization_id : option uuid;
  u_created_by : option uuid
}.

Record Organization := {
  o_id : uuid;
  o_name : string;
  o_slug : string;
  o_is_active : option bool
}.

Record Role := {
  r_id : uuid;
  r_name : string;
  r_description : option string;
  r_is_system_role : option bool;
  r_is_default : option bool;
  r_organization_id : option uuid;
  r_created_at : option timestamp;
  r_created_by : option uuid
}.

Record Permission := {
  p_id : uuid;
  p_name : string;
  p_description : option string;
  p_resource : string;
  p_action : string;
  p_is_system_permission : option bool;
  p_created_at : option timestamp
}.

Record UserRole := {
  ur_id : uuid;
  ur_user_id : option uuid;
  ur_role_id : option uuid;
  ur_assigned_by : option uuid;
  ur_assigned_at : option timestamp;
  ur_expires_at : option timestamp;
  ur_is_active : option bool
}.

Record RolePermission := {
  rp_id : uuid;
  rp_role_id : option uuid;
  rp_permission_id : option uuid;
  rp_granted_by : option uuid;
  rp_granted_at : option timestamp
}.

Record AuditLog := {
  al_id : uuid;
  al_user_id : option uuid;
  al_action : string;
  al_resource_type : option string;
  al_resource_id : option uuid;
  al_details : option string;
  al_ip_address : option string;
  al_user_agent : option string;
  al_created_at : option timestamp
}.

(** A database state: one list of rows per table. *)
Record database := {
  users : list User;
  organizations : list Organization;
  roles : list Role;
  permissions : list Permission;
  user_roles : list UserRole;
  role_permissions : list RolePermission;
  audit_logs : list AuditLog
}.

Definition empty_database : database :=
  {| users := []; organizations := []; roles := []; permissions := [];
     user_roles := []; role_permissions := []; audit_logs := [] |}.

(** ** The two SELECT statements of [RBACManager] *)

(** One row of
    [users u JOIN user_roles ur JOIN roles r JOIN role_permissions rp
     JOIN permissions p]. *)
Definition joined : Type :=
  User * UserRole * Role * RolePermission * Permission.

Definition on_u_ur (u : User) (ur : UserRole) : SQL.cond :=
  SQL.eq3 N.eqb (Some (u_id u)) (ur_user_id ur).
Definition on_ur_r (ur : UserRole) (r : Role) : SQL.cond :=
  SQL.eq3 N.eqb (ur_role_id ur) (Some (r_id r)).
Definition on_r_rp (r : Role) (rp : RolePermission) : SQL.cond :=
  SQL.eq3 N.eqb (Some (r_id r)) (rp_role_id rp).
Definition on_rp_p (rp : RolePermission) (p : Permission) : SQL.cond :=
  SQL.eq3 N.eqb (rp_permission_id rp) (Some (p_id p)).

(** The rows of [t] that join with [a] under the ON condition. *)
Definition matching {A B} (on : A -> B -> SQL.cond) (a : A) (t : list B) : list B :=
  filter (fun b => SQL.holds (on a b)) t.

(** The FROM clause shared by both queries, as a nested-loop inner join. *)
Definition rbac_join (d : database) : list joined :=
  flat_map (fun u =>
    flat_map (fun ur =>
      flat_map (fun r =>
        flat_map (fun rp =>
          map (fun p => (u, ur, r, rp, p))
              (matching on_rp_p rp (permissions d)))
          (matching on_r_rp r (role_permissions d)))
        (matching on_ur_r ur (roles d)))
      (matching on_u_ur u (user_roles d)))
    (users d).

(** WHERE clause of [check_permission]. *)
Definition check_permission_where (now : timestamp) (user_id : uuid)
    (resource action : string) (org_id : option uuid) (row : joined) : SQL.cond :=
  let '(u, ur, r, rp, p) := row in
  SQL.eq3 N.eqb (Some (u_id u)) (Some user_id)
  &&& SQL.eq3 String.eqb (Some (p_resource p)) (Some resource)
  &&& SQL.eq3 String.eqb (Some (p_action p)) (Some action)
  &&& SQL.eq3 Bool.eqb (u_is_active u) (Some true)
  &&& SQL.eq3 Bool.eqb (ur_is_active ur) (Some true)
  &&& (SQL.is_null (ur_expires_at ur) ||| SQL.gt3 (ur_expires_at ur) (Some now))
  &&& (SQL.is_null org_id
       ||| SQL.eq3 N.eqb (u_organization_id u) org_id
       ||| SQL.eq3 Bool.eqb (r_is_system_role r) (Some true)).

(** [SELECT COUNT( * ) FROM ... WHERE ...] of [check_permission]. *)
Definition check_permission_query (user_id : uuid) (resource action : string)
    (org_id : option uuid) (now : timestamp) (d : database) : nat :=
  List.length (filter (fun row => SQL.holds
             (check_permission_where now user_id resource action org_id row))
          (rbac_join d)).

(** A result row of [get_user_permissions], the [dict(row)] of the code,
    with its keys resource, action, name and description. *)
Record permission_dict := {
  pd_resource : string;
  pd_action : string;
  pd_name : string;
  pd_description : option string
}.

Definition permission_dict_eq_dec (a b : permission_dict) : {a = b} + {a <> b}.
Proof.
  decide equality; try apply string_dec.
  decide equality; apply string_dec.
Defined.

(** WHERE clause of [get_user_permissions]. *)
Definition get_user_permissions_where (now : timestamp) (user_id : uuid)
    (row : joined) : SQL.cond :=
  let '(u, ur, r, rp, p) := row in
  SQL.eq3 N.eqb (Some (u_id u)) (Some user_id)
  &&& SQL.eq3 Bool.eqb (u_is_active u) (Some true)
  &&& SQL.eq3 Bool.eqb (ur_is_active ur) (Some true)
  &&& (SQL.is_null (ur_expires_at ur) ||| SQL.gt3 (ur_expires_at ur) (Some now)).

Definition select_permission (row : joined) : permission_dict :=
  let '(_, _, _, _, p) := row in
  {| pd_resource := p_resource p; pd_action := p_action p;
     pd_name := p_name p; pd_description := p_description p |}.

(** [ORDER BY p.resource, p.action]: a stable insertion sort on the pair,
    strings compared byte-wise.  The database sorts by its collation, which
    the source does not fix; the byte order stands for it, and the theorems
    on the listing speak of its entries, never of their order. *)
Definition order_leb (a b : permission_dict) : bool :=
  match String.compare (pd_resource a) (pd_resource b) with
  | Lt => true
  | Gt => false
  | Eq => String.leb (pd_action a) (pd_action b)
  end.

Fixpoint order_insert (x : permission_dict) (l : list permission_dict) :=
  match l with
  | [] => [x]
  | y :: t => if order_leb x y then x :: l else y :: order_insert x t
  end.

Definition order_by (l : list permission_dict) : list permission_dict :=
  fold_right order_insert [] l.

(** [SELECT DISTINCT p.resource, p.action, p.name, p.description FROM ...
     WHERE ... ORDER BY p.resource, p.action]. *)
Definition get_user_permissions_query (user_id : uuid) (now : timestamp)
    (d : database) : list permission_dict :=
  order_by (nodup permission_dict_eq_dec
    (map select_permission
      (filter (fun row => SQL.holds (get_user_permissions_where now user_id row))
         (rbac_join d)))).

(** ** The SQLAlchemy session *)

Inductive exn :=
| IntegrityError (constraint : string)
| HTTPException (status_code : Z) (detail : string).

Inductive outcome (A : Type) :=
| Return (a : A)
| Raise (e : exn).
Arguments Return {A} a.
Arguments Raise {A} e.

(** Objects staged by [db.add]: [Permission( **perm_data)] and
    [UserRole(user_id=..., role_id=..., assigned_by=..., expires_at=...)]. *)
Inductive orm_object :=
| PermissionObject (perm_data : permission_dict)
| UserRoleObject (user_id role_id assigned_by : uuid) (expires_at : option timestamp).

(** The session: the committed database, the view of the open transaction,
    the objects added and not yet flushed, and the database clock [NOW()]. *)
Record Session := {
  committed : database;
  working : database;
  pending : list orm_object;
  clock : timestamp
}.

(** [DEFAULT gen_random_uuid()]: a token distinct from every key of the
    table (a collision of random UUIDs is not modelled). *)
Definition gen_random_uuid (taken : list uuid) : uuid :=
  N.succ (fold_right N.max 0%N taken).

Definition set_permissions (d : database) (l : list Permission) : database :=
  {| users := users d; organizations := organizations d; roles := roles d;
     permissions := l; user_roles := user_roles d;
     role_permissions := role_permissions d; audit_logs := audit_logs d |}.

Definition set_user_roles (d : database) (l : list UserRole) : database :=
  {| users := users d; organizations := organizations d; roles := roles d;
     permissions := permissions d; user_roles := l;
     role_permissions := role_permissions d; audit_logs := audit_logs d |}.

(** A foreign key is satisfied by NULL or by a key of the referenced table. *)
Definition references (keys : list uuid) (fk : option uuid) : bool :=
  match fk with
  | None => true
  | Some k => existsb (N.eqb k) keys
  end.

(** The constraint of [permissions] that inserting [row] would violate:
    the primary key, [name UNIQUE], [unique_resource_action]. *)
Definition permission_violation (row : Permission) (d : database) : option string :=
  if existsb (fun q => N.eqb (p_id q) (p_id row)) (permissions d)
  then Some "permissions_pkey"
  else if existsb (fun q => String.eqb (p_name q) (p_name row)) (permissions d)
  then Some "permissions_name_key"
  else if existsb (fun q => String.eqb (p_resource q) (p_resource row)
                            && String.eqb (p_action q) (p_action row)) (permissions d)
  then Some "unique_resource_action"
  else None.

(** Two grants collide on [unique_user_role] when both columns are equal and
    not NULL. *)
Definition same_user_role (a b : UserRole) : bool :=
  SQL.holds (SQL.eq3 N.eqb (ur_user_id a) (ur_user_id b)
             &&& SQL.eq3 N.eqb (ur_role_id a) (ur_role_id b)).

(** The constraint of [user_roles] that inserting [row] would violate: the
    primary key, the three foreign keys, [unique_user_role]. *)
Definition user_role_violation (row : UserRole) (d : database) : option string :=
  if existsb (fun q => N.eqb (ur_id q) (ur_id row)) (user_roles d)
  then Some "user_roles_pkey"
  else if negb (references (map u_id (users d)) (ur_user_id row))
  then Some "user_roles_user_id_fkey"
  else if negb (references (map r_id (roles d)) (ur_role_id row))
  then Some "user_roles_role_id_fkey"
  else if negb (references (map u_id (users d)) (ur_assigned_by row))
  then Some "user_roles_assigned_by_fkey"
  else if existsb (same_user_role row) (user_roles d)
  then Some "unique_user_role"
  else None.

(** The row an object becomes, with the column defaults of the schema. *)
Definition permission_row (now : timestamp) (d : database)
    (perm_data : permission_dict) : Permission :=
  {| p_id := gen_random_uuid (map p_id (permissions d));
     p_name := pd_name perm_data;
     p_description := pd_description perm_data;
     p_resource := pd_resource perm_data;
     p_action := pd_action perm_data;
     p_is_system_permission := Some false;
     p_created_at := Some now |}.

Definition user_role_row (now : timestamp) (d : database)
    (user_id role_id assigned_by : uuid) (expires_at : option timestamp) : UserRole :=
  {| ur_id := gen_random_uuid (map ur_id (user_roles d));
     ur_user_id := Some user_id;
     ur_role_id := Some role_id;
     ur_assigned_by := Some assigned_by;
     ur_assigned_at := Some now;
     ur_expires_at := expires_at;
     ur_is_active := Some true |}.

(** The INSERT of one staged object. *)
Definition insert_object (now : timestamp) (o : orm_object) (d : database)
    : outcome database :=
  match o with
  | PermissionObject perm_data =>
      let row := permission_row now d perm_data in
      match permission_violation row d with
      | Some c => Raise (IntegrityError c)
      | None => Return (set_permissions d (permissions d ++ [row]))
      end
  | UserRoleObject user_id role_id assigned_by expires_at =>
      let row := user_role_row now d user_id role_id assigned_by expires_at in
      match user_role_violation row d with
      | Some c => Raise (IntegrityError c)
      | None => Return (set_user_roles d (user_roles d ++ [row]))
      end
  end.

Fixpoint insert_all (now : timestamp) (os : list orm_object) (d : database)
    : outcome database :=
  match os with
  | [] => Return d
  | o :: rest =>
      match insert_object now o d with
      | Return d' => insert_all now rest d'
      | Raise e => Raise e
      end
  end.

(** Session code: a state transformer that returns or raises. *)
Definition M (A : Type) : Type := Session -> outcome A * Session.

Definition ret {A} (a : A) : M A := fun s => (Return a, s).
Definition raise {A} (e : exn) : M A := fun s => (Raise e, s).
Definition bind {A B} (c : M A) (k : A -> M B) : M B :=
  fun s => match c s with
           | (Return a, s') => k a s'
           | (Raise e, s') => (Raise e, s')
           end.

(** [try: body except Exception as e: handler]. *)
Definition try_except {A} (body : M A) (handler : exn -> M A) : M A :=
  fun s => match body s with
           | (Return a, s') => (Return a, s')
           | (Raise e, s') => handler e s'
           end.

Declare Scope session_scope.
Delimit Scope session_scope with session.
Notation "x <- c ;; k" := (bind c (fun x => k))
  (at level 100, c at next level, right associativity) : session_scope.
Notation "c ;; k" := (bind c (fun _ => k))
  (at level 100, right associativity) : session_scope.
Local Open Scope session_scope.

(** [db.add(obj)]. *)
Definition db_add (o : orm_object) : M unit := fun s =>
  (Return tt, {| committed := committed s; working := working s;
                 pending := pending s ++ [o]; clock := clock s |}).

(** Flush: the staged objects are inserted in the order they were added.  A
    violated constraint aborts the transaction and raises.  The session
    itself then refuses further work until [db.rollback()] is called; that
    state is not modelled, and of a session left by a raise without a
    rollback the theorems use the committed database only. *)
Definition db_flush : M unit := fun s =>
  match insert_all (clock s) (pending s) (working s) with
  | Return d =>
      (Return tt, {| committed := committed s; working := d;
                     pending := []; clock := clock s |})
  | Raise e =>
      (Raise e, {| committed := committed s; working := committed s;
                   pending := []; clock := clock s |})
  end.

(** [db.commit()]: flush, then make the transaction's view the committed
    database. *)
Definition db_commit : M unit :=
  db_flush ;;
  fun s => (Return tt, {| committed := working s; working := working s;
                          pending := pending s; clock := clock s |}).

(** [db.rollback()]. *)
Definition db_rollback : M unit := fun s =>
  (Return tt, {| committed := committed s; working := committed s;
                 pending := []; clock := clock s |}).

(** [db.execute(text(...), params)] of a SELECT: evaluated inside the open
    transaction. *)
Definition db_execute {A} (query : timestamp -> database -> A) : M A := fun s =>
  (Return (query (clock s) (working s)), s).

(** [db.query(T).filter(c).first()]: the session's default autoflush, then
    the first matching row. *)
Definition db_query_first {A} (table : database -> list A) (c : A -> bool)
    : M (option A) :=
  db_flush ;;
  fun s => (Return (find c (table (working s))), s).

(** ** [RBACManager] *)

Definition check_permission (user_id : uuid) (resource action : string)
    (organization_id : option uuid) : M bool :=
  result <- db_execute
              (check_permission_query user_id resource action organization_id) ;;
  ret (0 <? result)%nat.

Definition get_user_permissions (user_id : uuid) : M (list permission_dict) :=
  result <- db_execute (get_user_permissions_query user_id) ;;
  ret result.

Definition assign_role (user_id role_id assigned_by : uuid)
    (expires_at : option timestamp) : M bool :=
  try_except
    (let user_role := UserRoleObject user_id role_id assigned_by expires_at in
     db_add user_role ;;
     db_commit ;;
     ret true)
    (fun e =>
     db_rollback ;;
     ret false).

(** ** [require_permission] *)

Definition HTTP_403_FORBIDDEN : Z := 403.

(** The wrapper around a handler [func], called with [current_user]. *)
Definition require_permission {A} (resource action : string) (func : M A)
    (current_user : User) : M A :=
  allowed <- check_permission (u_id current_user) resource action
               (u_organization_id current_user) ;;
  if negb allowed
  then raise (HTTPException HTTP_403_FORBIDDEN
                ("Insufficient permissions: " ++ resource ++ "." ++ action)%string)
  else func.

(** ** Seeding *)

Definition perm (n r a d : string) : permission_dict :=
  {| pd_resource := r; pd_action := a; pd_name := n; pd_description := Some d |}.

Definition DEFAULT_PERMISSIONS : list permission_dict := [
  perm "system.admin" "system" "admin" "Full system administration";
  perm "user.create" "user" "create" "Create new users";
  perm "user.read" "user" "read" "View user information";
  perm "user.update" "user" "update" "Update user information";
  perm "user.delete" "user" "delete" "Delete users";
  perm "knowledge_base.create" "knowledge_base" "create" "Create knowledge bases";
  perm "knowledge_base.read" "knowledge_base" "read" "View knowledge bases";
  perm "knowledge_base.update" "knowledge_base" "update" "Update knowledge bases";
  perm "knowledge_base.delete" "knowledge_base" "delete" "Delete knowledge bases";
  perm "analytics.read" "analytics" "read" "View analytics";
  perm "analytics.admin" "analytics" "admin" "Full analytics access";
  perm "conversation.create" "conversation" "create" "Start conversations";
  perm "conversation.read" "conversation" "read" "View conversations";
  perm "conversation.update" "conversation" "update" "Update conversations";
  perm "conversation.delete" "conversation" "delete" "Delete conversations";
  perm "scraping.submit" "scraping" "submit" "Submit URLs for scraping";
  perm "scraping.admin" "scraping" "admin" "Configure scraping settings"
].

Fixpoint for_each {A} (l : list A) (body : A -> M unit) : M unit :=
  match l with
  | [] => ret tt
  | x :: rest => body x ;; for_each rest body
  end.

(** The body of the loop of [seed_permissions]. *)
Definition seed_one (perm_data : permission_dict) : M unit :=
  existing <- db_query_first permissions
                (fun p => String.eqb (p_name p) (pd_name perm_data)) ;;
  match existing with
  | None => db_add (PermissionObject perm_data)
  | Some _ => ret tt
  end.

Definition seed_permissions : M unit :=
  for_each DEFAULT_PERMISSIONS seed_one ;;
  db_commit.

(** ** The vocabulary of the specification *)

(** A grant is effective when it is active and its expiry is absent or in
    the future. *)
Definition effective (now : timestamp) (ur : UserRole) : Prop :=
  ur_is_active ur = Some true /\
  (ur_expires_at ur = None \/ exists t, ur_expires_at ur = Some t /\ (now < t)%Z).

(** [ur] is a grant of the role [r] to the user [u]. *)
Definition grant_of (d : database) (u : User) (ur : UserRole) (r : Role) : Prop :=
  In u (users d) /\ In ur (user_roles d) /\ In r (roles d) /\
  ur_user_id ur = Some (u_id u) /\ ur_role_id ur = Some (r_id r).

(** [rp] attaches the permission [p] to the role [r]. *)
Definition link_of (d : database) (r : Role) (rp : RolePermission) (p : Permission)
    : Prop :=
  In rp (role_permissions d) /\ In p (permissions d) /\
  rp_role_id rp = Some (r_id r) /\ rp_permission_id rp = Some (p_id p).

(** The organization argument passes for the user or for a system role. *)
Definition org_passes (org_id : option uuid) (u : User) (r : Role) : Prop :=
  org_id = None \/
  (exists o, org_id = Some o /\ u_organization_id u = Some o) \/
  r_is_system_role r = Some true.

(** A path user, grant, role, link, permission that the WHERE clause of
    [check_permission] accepts. *)
Definition allowing_path (d : database) (now : timestamp) (user_id : uuid)
    (resource action : string) (org_id : option uuid)
    (u : User) (ur : UserRole) (r : Role) (rp : RolePermission) (p : Permission)
    : Prop :=
  grant_of d u ur r /\ link_of d r rp p /\
  u_id u = user_id /\ p_resource p = resource /\ p_action p = action /\
  u_is_active u = Some true /\ effective now ur /\ org_passes org_id u r.

(** A grant that was revoked, or whose expiry has passed. *)
Definition lapsed (now : timestamp) (ur : UserRole) : Prop :=
  ur_is_active ur = Some false \/
  exists t, ur_expires_at ur = Some t /\ (t < now)%Z.

(** The session with another view of the open transaction. *)
Definition with_working (s : Session) (d : database) : Session :=
  {| committed := committed s; working := d;
     pending := pending s; clock := clock s |}.

Definition set_roles (d : database) (l : list Role) : database :=
  {| users := users d; organizations := organizations d; roles := l;
     permissions := permissions d; user_roles := user_roles d;
     role_permissions := role_permissions d; audit_logs := audit_logs d |}.

(** The role [r] moved to the organization [org r]. *)
Definition move_role (org : Role -> option uuid) (r : Role) : Role :=
  {| r_id := r_id r; r_name := r_name r; r_description := r_description r;
     r_is_system_role := r_is_system_role r; r_is_default := r_is_default r;
     r_organization_id := org r; r_created_at := r_created_at r;
     r_created_by := r_created_by r |}.

(** Every role of the open transaction moved by [org]. *)
Definition move_roles (org : Role -> option uuid) (s : Session) : Session :=
  with_working s (set_roles (working s) (map (move_role org) (roles (working s)))).

(** A session with no open work: nothing staged, nothing uncommitted. *)
Definition clean (s : Session) : Prop :=
  working s = committed s /\ pending s = [].

(** The invariant of [CONSTRAINT unique_user_role UNIQUE(user_id, role_id)]:
    no two rows of [user_roles] collide. *)
Definition unique_user_role (d : database) : Prop :=
  ForallOrdPairs (fun a b => same_user_role a b = false) (user_roles d).

(** [g] is a grant row for the pair (user_id, role_id). *)
Definition grant_row_for (user_id role_id : uuid) (g : UserRole) : Prop :=
  ur_user_id g = Some user_id /\ ur_role_id g = Some role_id.

(** The session after a commit that leaves [d] in the database. *)
Definition committed_at (s : Session) (d : database) : Session :=
  {| committed := d; working := d; pending := []; clock := clock s |}.

(** The invariant of the keys of [permissions]: the primary key,
    [name UNIQUE] and [unique_resource_action]. *)
Definition permission_key (p : Permission) : string * string :=
  (p_resource p, p_action p).

Definition unique_permissions (d : database) : Prop :=
  NoDup (map p_id (permissions d)) /\
  NoDup (map p_name (permissions d)) /\
  NoDup (map permission_key (permissions d)).

(** What the seeding loop does to the database of the open transaction,
    each missing entry inserted when it is met: the loop itself stages it
    and inserts it at the next query or at the commit. *)
Fixpoint seed_fold (now : timestamp) (l : list permission_dict) (d : database)
    : outcome database :=
  match l with
  | [] => Return d
  | perm_data :: rest =>
      match find (fun p => String.eqb (p_name p) (pd_name perm_data))
                 (permissions d) with
      | Some _ => seed_fold now rest d
      | None =>
          match insert_object now (PermissionObject perm_data) d with
          | Return d' => seed_fold now rest d'
          | Raise e => Raise e
          end
      end
  end.

(** A session that has nothing but [d], committed. *)
Definition fresh_session (now : timestamp) (d : database) : Session :=
  {| committed := d; working := d; pending := []; clock := now |}.

(** ** A small tenant used for the concrete runs *)

Module Acme.

Definition org1 : uuid := 100%N.
Definition org2 : uuid := 200%N.

Definition alice : User :=
  {| u_id := 1%N; u_email := "alice@acme.test"; u_username := "alice";
     u_is_active := Some true; u_is_verified := Some true;
     u_is_system_user := Some false; u_organization_id := Some org1;
     u_created_by := None |}.

(** A role that is not a system role and belongs to another organization. *)
Definition regular : Role :=
  {| r_id := 10%N; r_name := "Regular User"; r_description := None;
     r_is_system_role := Some false; r_is_default := Some true;
     r_organization_id := Some org2; r_created_at := Some 0%Z;
     r_created_by := None |}.

Definition super : Role :=
  {| r_id := 11%N; r_name := "Super Admin"; r_description := None;
     r_is_system_role := Some true; r_is_default := Some false;
     r_organization_id := None; r_created_at := Some 0%Z;
     r_created_by := None |}.

Definition kb_read : Permission :=
  {| p_id := 20%N; p_name := "knowledge_base.read";
     p_description := Some "View knowledge bases";
     p_resource := "knowledge_base"; p_action := "read";
     p_is_system_permission := Some false; p_created_at := Some 0%Z |}.

Definition sys_admin : Permission :=
  {| p_id := 21%N; p_name := "system.admin";
     p_description := Some "Full system administration";
     p_resource := "system"; p_action := "admin";
     p_is_system_permission := Some true; p_created_at := Some 0%Z |}.

Definition regular_kb_read : RolePermission :=
  {| rp_id := 30%N; rp_role_id := Some 10%N; rp_permission_id := Some 20%N;
     rp_granted_by := None; rp_granted_at := Some 0%Z |}.

Definition super_sys_admin : RolePermission :=
  {| rp_id := 31%N; rp_role_id := Some 11%N; rp_permission_id := Some 21%N;
     rp_granted_by := None; rp_granted_at := Some 0%Z |}.

Definition grant (id role : uuid) (expires : option timestamp) (active : bool)
    : UserRole :=
  {| ur_id := id; ur_user_id := Some 1%N; ur_role_id := Some role;
     ur_assigned_by := None; ur_assigned_at := Some 0%Z;
     ur_expires_at := expires; ur_is_active := Some active |}.

Definition alice_regular : UserRole := grant 40%N 10%N None true.
Definition alice_super : UserRole := grant 41%N 11%N (Some 2000%Z) true.

Definition tenant (grants : list UserRole) : database :=
  {| users := [alice]; organizations := [];
     roles := [regular; super];
     permissions := [kb_read; sys_admin];
     user_roles := grants;
     role_permissions := [regular_kb_read; super_sys_admin];
     audit_logs := [] |}.

(** The pair (system, admin) under another name. *)
Definition root : Permission :=
  {| p_id := 21%N; p_name := "root";
     p_description := Some "Superuser";
     p_resource := "system"; p_action := "admin";
     p_is_system_permission := Some true; p_created_at := Some 0%Z |}.

Definition renamed : database :=
  {| users := []; organizations := []; roles := [];
     permissions := [root]; user_roles := []; role_permissions := [];
     audit_logs := [] |}.

(** A clean session on the tenant, the clock at 1000. *)
Definition session (grants : list UserRole) : Session :=
  {| committed := tenant grants; working := tenant grants;
     pending := []; clock := 1000%Z |}.

End Acme.


(** ** Further vocabulary *)

(** The pair a listing entry stands for. *)
Definition listed_pair (pd : permission_dict) : string * string :=
  (pd_resource pd, pd_action pd).

Definition pair_dec (a b : string * string) : {a = b} + {a <> b}.
Proof. decide equality; apply string_dec. Defined.

(** Every row of the five tables of the join of [d] is a row of [d']. *)
Definition rows_included (d d' : database) : Prop :=
  incl (users d) (users d') /\ incl (user_roles d) (user_roles d') /\
  incl (roles d) (roles d') /\ incl (role_permissions d) (role_permissions d') /\
  incl (permissions d) (permissions d').

(** ** The other decorators of auth/decorators.py *)

(** [any(rbac.check_permission(...) for resource, action in permissions)]:
    the pairs are checked in order, up to the first that is allowed. *)
Fixpoint any_permission (current_user : User)
    (permissions : list (string * string)) : M bool :=
  match permissions with
  | [] => ret false
  | (resource, action) :: rest =>
      allowed <- check_permission (u_id current_user) resource action
                   (u_organization_id current_user) ;;
      if allowed then ret true else any_permission current_user rest
  end.

Section RequireAny.

(** How Python formats a list of strings inside an f-string. *)
Variable str : list string -> string.

Definition require_any_permission {A} (permissions : list (string * string))
    (func : M A) (current_user : User) : M A :=
  has_permission <- any_permission current_user permissions ;;
  if negb has_permission
  then
    let required_perms :=
      map (fun '(r, a) => (r ++ "." ++ a)%string) permissions in
    raise (HTTPException HTTP_403_FORBIDDEN
             ("Insufficient permissions. Required any of: "
              ++ str required_perms)%string)
  else func.

End RequireAny.

(** [a != b] of Python on two tokens that may be [None]. *)
Definition py_ne (a b : option uuid) : bool :=
  match a, b with
  | Some x, Some y => negb (N.eqb x y)
  | None, None => false
  | _, _ => true
  end.

(** The wrapper of [require_organization_access]; [organization_id] is
    [kwargs.get('organization_id')], [None] when the handler has no such
    argument (the text of a UUID is never empty, so any other value is
    truthy). *)
Definition require_organization_access {A} (func : M A) (current_user : User)
    (organization_id : option uuid) : M A :=
  if match organization_id with
     | Some _ => py_ne (u_organization_id current_user) organization_id
     | None => false
     end
  then
    allowed <- check_permission (u_id current_user) "system" "admin" None ;;
    if negb allowed
    then raise (HTTPException HTTP_403_FORBIDDEN
                  "Access denied: Organization mismatch")
    else func
  else func.

(** ** The endpoint [get_knowledge_base] of api/knowledge_bases.py *)

(** A row of the knowledge-base table, with the columns the endpoint reads;
    RBAC.md does not declare the table, the endpoint takes its rows as
    [knowledge_bases]. *)
Record KnowledgeBase := {
  kb_id : uuid;
  kb_name : string;
  kb_organization_id : option uuid
}.

(** [column == value] of SQLAlchemy with a Python value: [IS NULL] when the
    value is [None], [=] otherwise. *)
Definition column_eq (column value : option uuid) : SQL.cond :=
  match value with
  | None => SQL.is_null column
  | Some _ => SQL.eq3 N.eqb column value
  end.

Definition get_knowledge_base (knowledge_bases : list KnowledgeBase)
    (id : uuid) (current_user : User) : M KnowledgeBase :=
  require_permission "knowledge_base" "read"
    (kb <- db_query_first (fun _ => knowledge_bases)
             (fun kb => SQL.holds
                (SQL.eq3 N.eqb (Some (kb_id kb)) (Some id)
                 &&& column_eq (kb_organization_id kb)
                       (u_organization_id current_user))) ;;
     match kb with
     | None => raise (HTTPException 404 "Knowledge base not found")
     | Some kb => ret kb
     end)
    current_user.

(** ** The frontend: hooks/usePermissions.ts and the protected components *)

Module Frontend.

(** The [user] of [useAuth]: [permissions] may be missing. *)
Record AuthUser := {
  permissions : option (list permission_dict)
}.

(** What [useAuth()] returns: [user] may be null. *)
Record Auth := {
  user : option AuthUser;
  isLoading : bool
}.

(** [user?.permissions]. *)
Definition user_permissions (auth : Auth) : option (list permission_dict) :=
  match user auth with
  | Some u => permissions u
  | None => None
  end.

Definition hasPermission (auth : Auth) (resource action : string) : bool :=
  match user_permissions auth with
  | None => false
  | Some ps =>
      existsb (fun p => String.eqb (pd_resource p) resource
                        && String.eqb (pd_action p) action) ps
  end.

Definition hasAnyPermission (auth : Auth) (perms : list (string * string)) : bool :=
  existsb (fun '(resource, action) => hasPermission auth resource action) perms.

(** The [permissions] field of the hook: [user?.permissions || []]. *)
Definition permissions_or_empty (auth : Auth) : list permission_dict :=
  match user_permissions auth with
  | Some ps => ps
  | None => []
  end.

(** What a protected component renders; a node given by the caller is of
    type [node], [None] being [null]. *)
Inductive rendered (node : Type) :=
| LoadingDiv
| Given (n : option node)
| Fragment (children : node)
| Navigate (to : string).
Arguments LoadingDiv {node}.
Arguments Given {node} n.
Arguments Fragment {node} children.
Arguments Navigate {node} to.

Definition ProtectedComponent {node} (auth : Auth) (resource action : string)
    (children : node) (fallback : option node) (showFallback : bool)
    : rendered node :=
  if isLoading auth then LoadingDiv
  else if negb (hasPermission auth resource action)
  then Given (if showFallback then fallback else None)
  else Fragment children.

Definition ProtectedRoute {node} (auth : Auth) (resource action : string)
    (children : node) (redirectTo : string) : rendered node :=
  if isLoading auth then LoadingDiv
  else if negb (hasPermission auth resource action)
  then Navigate redirectTo
  else Fragment children.

End Frontend.

(** ** A deactivated user *)

(** Alice with [is_active = false], her grant of Regular User still
    effective. *)
Definition dormant_alice : User :=
  {| u_id := 1%N; u_email := "alice@acme.test"; u_username := "alice";
     u_is_active := Some false; u_is_verified := Some true;
     u_is_system_user := Some false; u_organization_id := Some Acme.org1;
     u_created_by := None |}.

Definition dormant_tenant : database :=
  {| users := [dormant_alice]; organizations := [];
     roles := [Acme.regular; Acme.super];
     permissions := [Acme.kb_read; Acme.sys_admin];
     user_roles := [Acme.alice_regular];
     role_permissions := [Acme.regular_kb_read; Acme.super_sys_admin];
     audit_logs := [] |}.
(** ** Three-valued logic *)

Lemma holds_and3 a b : SQL.holds (SQL.and3 a b) = SQL.holds a && SQL.holds b.
Proof. destruct a as [[|]|], b as [[|]|]; reflexivity. Qed.

Lemma holds_or3 a b : SQL.holds (SQL.or3 a b) = SQL.holds a || SQL.holds b.
Proof. destruct a as [[|]|], b as [[|]|]; reflexivity. Qed.

(** ** The queries, row by row *)

Lemma holds_eq3_N x y :
  SQL.holds (SQL.eq3 N.eqb x y) = true <-> exists k, x = Some k /\ y = Some k.
Proof.
  destruct x as [a|], y as [b|]; simpl; split;
    try discriminate; try (intros (k & H1 & H2); discriminate).
  - destruct (N.eqb_spec a b); [subst; eauto | discriminate].
  - intros (k & H1 & H2). injection H1 as ->. injection H2 as ->.
    now rewrite N.eqb_refl.
Qed.

Lemma holds_eq3_string x y :
  SQL.holds (SQL.eq3 String.eqb (Some x) (Some y)) = true <-> x = y.
Proof.
  simpl. destruct (String.eqb_spec x y); split; congruence.
Qed.

Lemma holds_is_true x :
  SQL.holds (SQL.eq3 Bool.eqb x (Some true)) = true <-> x = Some true.
Proof. destruct x as [[|]|]; simpl; split; congruence. Qed.

Lemma holds_unexpired now e :
  SQL.holds (SQL.is_null e ||| SQL.gt3 e (Some now)) = true <->
  e = None \/ exists t, e = Some t /\ (now < t)%Z.
Proof.
  rewrite holds_or3, orb_true_iff.
  destruct e as [t|]; simpl.
  - destruct (Z.ltb_spec now t); split.
    + intros _. right. eauto.
    + auto.
    + intros [H0 | H0]; discriminate.
    + intros [H0 | (t' & H1 & H2)]; [discriminate | ].
      injection H1 as <-. lia.
  - split; auto.
Qed.

Lemma holds_org org_id u r :
  SQL.holds (SQL.is_null org_id
             ||| SQL.eq3 N.eqb (u_organization_id u) org_id
             ||| SQL.eq3 Bool.eqb (r_is_system_role r) (Some true)) = true <->
  org_passes org_id u r.
Proof.
  unfold org_passes.
  rewrite !holds_or3, !orb_true_iff, holds_eq3_N, holds_is_true.
  split.
  - intros [[H | (k & H1 & H2)] | H]; auto.
    + destruct org_id; [discriminate | auto].
    + right. left. eauto.
  - intros [H | [(o & H1 & H2) | H]]; auto.
    + subst. auto.
    + left. right. eauto.
Qed.

Lemma in_matching {A B} (on : A -> B -> SQL.cond) a t b :
  In b (matching on a t) <-> In b t /\ SQL.holds (on a b) = true.
Proof. apply filter_In. Qed.

Lemma in_rbac_join d u ur r rp p :
  In (u, ur, r, rp, p) (rbac_join d) <-> grant_of d u ur r /\ link_of d r rp p.
Proof.
  unfold rbac_join, grant_of, link_of. split.
  - intros H.
    apply in_flat_map in H as (u' & Hu & H).
    apply in_flat_map in H as (ur' & Hur & H).
    apply in_flat_map in H as (r' & Hr & H).
    apply in_flat_map in H as (rp' & Hrp & H).
    apply in_map_iff in H as (p' & E & Hp).
    injection E as -> -> -> -> ->.
    apply in_matching in Hur as [Hur Hur'], Hr as [Hr Hr'],
      Hrp as [Hrp Hrp'], Hp as [Hp Hp'].
    unfold on_u_ur, on_ur_r, on_r_rp, on_rp_p in *.
    apply holds_eq3_N in Hur' as (k1 & E1 & E1'), Hr' as (k2 & E2 & E2'),
      Hrp' as (k3 & E3 & E3'), Hp' as (k4 & E4 & E4').
    repeat split; auto; congruence.
  - intros ((Hu & Hur & Hr & E1 & E2) & (Hrp & Hp & E3 & E4)).
    apply in_flat_map. exists u. split; [assumption | ].
    apply in_flat_map. exists ur. split.
    { apply in_matching. split; [assumption | ].
      apply holds_eq3_N. unfold on_u_ur. eauto. }
    apply in_flat_map. exists r. split.
    { apply in_matching. split; [assumption | ].
      apply holds_eq3_N. eauto. }
    apply in_flat_map. exists rp. split.
    { apply in_matching. split; [assumption | ].
      apply holds_eq3_N. eauto. }
    apply in_map_iff. exists p. split; [reflexivity | ].
    apply in_matching. split; [assumption | ].
    apply holds_eq3_N. eauto.
Qed.

Lemma check_permission_where_iff now user_id resource action org_id u ur r rp p :
  SQL.holds (check_permission_where now user_id resource action org_id
               (u, ur, r, rp, p)) = true <->
  u_id u = user_id /\ p_resource p = resource /\ p_action p = action /\
  u_is_active u = Some true /\ effective now ur /\ org_passes org_id u r.
Proof.
  unfold check_permission_where, effective.
  rewrite !holds_and3, !andb_true_iff, holds_org, holds_unexpired,
    !holds_is_true, !holds_eq3_string.
  simpl. destruct (N.eqb_spec (u_id u) user_id); intuition congruence.
Qed.

Lemma get_user_permissions_where_iff now user_id u ur r rp p :
  SQL.holds (get_user_permissions_where now user_id (u, ur, r, rp, p)) = true <->
  u_id u = user_id /\ u_is_active u = Some true /\ effective now ur.
Proof.
  unfold get_user_permissions_where, effective.
  rewrite !holds_and3, !andb_true_iff, holds_unexpired, !holds_is_true.
  simpl. destruct (N.eqb_spec (u_id u) user_id); intuition congruence.
Qed.

(** ** What the queries return *)

Lemma some_row_counted {A} (f : A -> bool) (l : list A) :
  (0 <? List.length (filter f l))%nat = true <-> exists x, In x l /\ f x = true.
Proof.
  rewrite Nat.ltb_lt. split.
  - destruct (filter f l) as [|x t] eqn:E; simpl; [lia | intros _].
    exists x. apply filter_In. rewrite E. now left.
  - intros (x & Hx & Hf).
    assert (H : In x (filter f l)) by (apply filter_In; auto).
    destruct (filter f l); simpl in *; [contradiction | lia].
Qed.

(** [check_permission] always returns, and leaves the session as it was. *)
Lemma check_permission_runs user_id resource action org_id s :
  check_permission user_id resource action org_id s =
  (Return (0 <? check_permission_query user_id resource action org_id
                  (clock s) (working s))%nat, s).
Proof. reflexivity. Qed.

Lemma check_permission_query_positive user_id resource action org_id now d :
  (0 <? check_permission_query user_id resource action org_id now d)%nat = true <->
  exists u ur r rp p,
    allowing_path d now user_id resource action org_id u ur r rp p.
Proof.
  unfold check_permission_query, allowing_path. rewrite some_row_counted. split.
  - intros ([[[[u ur] r] rp] p] & Hin & Hw).
    apply in_rbac_join in Hin as [Hg Hl].
    apply check_permission_where_iff in Hw.
    exists u, ur, r, rp, p. tauto.
  - intros (u & ur & r & rp & p & Hg & Hl & Hw).
    exists (u, ur, r, rp, p). split.
    + apply in_rbac_join. auto.
    + apply check_permission_where_iff. assumption.
Qed.

Lemma check_permission_true_iff user_id resource action org_id s :
  check_permission user_id resource action org_id s = (Return true, s) <->
  exists u ur r rp p,
    allowing_path (working s) (clock s) user_id resource action org_id u ur r rp p.
Proof.
  rewrite check_permission_runs, <- check_permission_query_positive.
  split; [intros H; injection H; auto | intros ->; reflexivity].
Qed.

Lemma check_permission_false_iff user_id resource action org_id s :
  check_permission user_id resource action org_id s = (Return false, s) <->
  ~ exists u ur r rp p,
      allowing_path (working s) (clock s) user_id resource action org_id u ur r rp p.
Proof.
  rewrite <- check_permission_true_iff, check_permission_runs.
  destruct (0 <? _)%nat; split; congruence.
Qed.

Lemma own_org_passes u r : org_passes (u_organization_id u) u r.
Proof.
  unfold org_passes. destruct (u_organization_id u) as [o|]; eauto.
Qed.

(** [require_permission] lets the handler run when the check allows. *)
Lemma require_permission_allowed {A} resource action (func : M A) u s :
  check_permission (u_id u) resource action (u_organization_id u) s = (Return true, s) ->
  require_permission resource action func u s = func s.
Proof.
  intros H. unfold require_permission, bind. rewrite H. reflexivity.
Qed.

(** It raises 403 Forbidden, and nothing else happens, when the check denies. *)
Lemma require_permission_denied {A} resource action (func : M A) u s :
  check_permission (u_id u) resource action (u_organization_id u) s = (Return false, s) ->
  require_permission resource action func u s =
  (Raise (HTTPException 403
            ("Insufficient permissions: " ++ resource ++ "." ++ action)%string), s).
Proof.
  intros H. unfold require_permission, bind. rewrite H. reflexivity.
Qed.

(** ** Granted permissions are allowed *)

(** C1.  An active user [u] with an effective grant [ur] of a role [r] is
    allowed every permission [p] that a link [rp] attaches to [r], when the
    check is made with the user's own organization, as [require_permission]
    makes it: [check_permission] returns [True] and the wrapped handler
    runs. *)
Theorem granted_permission_allowed :
  forall (s : Session) (u : User) (ur : UserRole) (r : Role)
         (rp : RolePermission) (p : Permission),
    u_is_active u = Some true ->
    grant_of (working s) u ur r ->
    effective (clock s) ur ->
    link_of (working s) r rp p ->
    check_permission (u_id u) (p_resource p) (p_action p) (u_organization_id u) s
      = (Return true, s) /\
    forall (A : Type) (func : M A),
      require_permission (p_resource p) (p_action p) func u s = func s.
Proof.
  intros s u ur r rp p Hact Hg He Hl.
  assert (H : check_permission (u_id u) (p_resource p) (p_action p)
                (u_organization_id u) s = (Return true, s)).
  { apply check_permission_true_iff. exists u, ur, r, rp, p.
    unfold allowing_path. repeat split; auto using own_org_passes;
    try apply Hg; try apply Hl; try apply He. }
  split; [exact H | ].
  intros A func. now apply require_permission_allowed.
Qed.

(** ** Concrete runs of the checker *)

Example alice_reads_knowledge_bases :
  check_permission 1%N "knowledge_base" "read" (Some Acme.org1)
    (Acme.session [Acme.alice_regular])
  = (Return true, Acme.session [Acme.alice_regular]).
Proof. reflexivity. Qed.

Example alice_is_no_admin :
  check_permission 1%N "system" "admin" (Some Acme.org1)
    (Acme.session [Acme.alice_regular])
  = (Return false, Acme.session [Acme.alice_regular]).
Proof. reflexivity. Qed.

Example alice_lists_permissions :
  get_user_permissions 1%N (Acme.session [Acme.alice_super; Acme.alice_regular])
  = (Return [ {| pd_resource := "knowledge_base"; pd_action := "read";
                 pd_name := "knowledge_base.read";
                 pd_description := Some "View knowledge bases" |};
              {| pd_resource := "system"; pd_action := "admin";
                 pd_name := "system.admin";
                 pd_description := Some "Full system administration" |} ],
     Acme.session [Acme.alice_super; Acme.alice_regular]).
Proof. reflexivity. Qed.

Lemma granted_permission_allowed_witness :
  check_permission 1%N "knowledge_base" "read" (Some Acme.org1)
    (Acme.session [Acme.alice_regular])
  = (Return true, Acme.session [Acme.alice_regular]).
Proof.
  refine (proj1 (granted_permission_allowed (Acme.session [Acme.alice_regular])
            Acme.alice Acme.alice_regular Acme.regular Acme.regular_kb_read
            Acme.kb_read _ _ _ _)).
  - reflexivity.
  - unfold grant_of. simpl. intuition.
  - unfold effective. simpl. intuition.
  - unfold link_of. simpl. intuition.
Defined.

(** ** The role's own organization plays no part *)

Lemma allowing_path_move_roles org s user_id resource action org_id :
  (exists u ur r rp p,
     allowing_path (working (move_roles org s)) (clock s)
       user_id resource action org_id u ur r rp p) <->
  (exists u ur r rp p,
     allowing_path (working s) (clock s) user_id resource action org_id u ur r rp p).
Proof.
  unfold allowing_path, grant_of, link_of, org_passes. simpl. split.
  - intros (u & ur & r' & rp & p & (Hu & Hur & Hr & E1 & E2) & Hl & Hw).
    apply in_map_iff in Hr as (r & <- & Hr).
    exists u, ur, r, rp, p. simpl in *. tauto.
  - intros (u & ur & r & rp & p & (Hu & Hur & Hr & E1 & E2) & Hl & Hw).
    exists u, ur, (move_role org r), rp, p. simpl.
    pose proof (in_map (move_role org) _ _ Hr). tauto.
Qed.

(** A deactivated user holds an effective grant of a role that carries
    knowledge_base.read: the check denies, with no organization given and
    with the user's own. *)
Lemma deactivated_user_is_denied :
  let s := fresh_session 1000%Z dormant_tenant in
  u_is_active dormant_alice = Some false /\
  grant_of (working s) dormant_alice Acme.alice_regular Acme.regular /\
  effective (clock s) Acme.alice_regular /\
  link_of (working s) Acme.regular Acme.regular_kb_read Acme.kb_read /\
  check_permission 1%N "knowledge_base" "read" None s = (Return false, s) /\
  check_permission 1%N "knowledge_base" "read"
    (u_organization_id dormant_alice) s = (Return false, s).
Proof.
  unfold grant_of, effective, link_of. simpl. intuition.
Qed.

(** C9, amended.  The check compares the organization argument with the
    user's organization only.  With an argument that is null or the user's
    own organization, a permission carried by an effective role of an active
    user is granted whatever [organization_id] (and [is_system_role]) the
    role has; and moving the roles to other organizations changes no answer
    of [check_permission], for any user. *)
Theorem role_organization_not_consulted :
  forall (s : Session) (u : User) (ur : UserRole) (r : Role)
         (rp : RolePermission) (p : Permission) (org_id : option uuid),
    u_is_active u = Some true ->
    grant_of (working s) u ur r ->
    effective (clock s) ur ->
    link_of (working s) r rp p ->
    org_id = None \/ org_id = u_organization_id u ->
    check_permission (u_id u) (p_resource p) (p_action p) org_id s
      = (Return true, s) /\
    forall (org : Role -> option uuid) (user_id : uuid)
           (resource action : string) (o : option uuid),
      fst (check_permission user_id resource action o (move_roles org s))
      = fst (check_permission user_id resource action o s).
Proof.
  intros s u ur r rp p org_id Hact Hg He Hl Horg. split.
  - apply check_permission_true_iff. exists u, ur, r, rp, p.
    unfold allowing_path. repeat split; try apply Hg; try apply Hl;
      try apply He; auto.
    destruct Horg as [-> | ->]; [now left | apply own_org_passes].
  - intros org user_id resource action o.
    rewrite !check_permission_runs. simpl. f_equal.
    apply eq_true_iff_eq.
    rewrite !check_permission_query_positive.
    apply (allowing_path_move_roles org s).
Qed.

(** Alice's only role belongs to another organization and is no system
    role: the permission is granted all the same. *)
Lemma role_organization_not_consulted_witness :
  r_organization_id Acme.regular = Some Acme.org2 /\
  u_organization_id Acme.alice = Some Acme.org1 /\
  check_permission 1%N "knowledge_base" "read" None
    (Acme.session [Acme.alice_regular])
  = (Return true, Acme.session [Acme.alice_regular]).
Proof.
  split; [reflexivity | split; [reflexivity | ] ].
  refine (proj1 (role_organization_not_consulted
            (Acme.session [Acme.alice_regular])
            Acme.alice Acme.alice_regular Acme.regular Acme.regular_kb_read
            Acme.kb_read None _ _ _ _ _)).
  - reflexivity.
  - unfold grant_of. simpl. intuition.
  - unfold effective. simpl. intuition.
  - unfold link_of. simpl. intuition.
  - now left.
Defined.

(** ** System roles and the organization argument *)

(** Alice holds an effective system role (Super Admin, which carries only
    system.admin) and an effective role carrying knowledge_base.read; asked
    for another organization, the check denies. *)
Lemma system_role_elsewhere_does_not_bypass :
  let s := Acme.session [Acme.alice_super; Acme.alice_regular] in
  (grant_of (working s) Acme.alice Acme.alice_super Acme.super /\
   effective (clock s) Acme.alice_super /\
   r_is_system_role Acme.super = Some true) /\
  (grant_of (working s) Acme.alice Acme.alice_regular Acme.regular /\
   effective (clock s) Acme.alice_regular /\
   link_of (working s) Acme.regular Acme.regular_kb_read Acme.kb_read) /\
  check_permission 1%N "knowledge_base" "read" (Some Acme.org2) s
    = (Return false, s).
Proof.
  unfold grant_of, effective, link_of. simpl.
  repeat split; auto; try (right; exists 2000%Z; split; [reflexivity | lia]).
Qed.

(** C2, amended.  The check succeeds for every organization argument when an
    effective role of the active user that itself carries the permission is
    a system role; and when it succeeds without such a role, the argument is
    null or the user's organization. *)
Theorem system_role_bypass_is_per_role :
  (forall (s : Session) (u : User) (ur : UserRole) (r : Role)
          (rp : RolePermission) (p : Permission) (org_id : option uuid),
      u_is_active u = Some true ->
      grant_of (working s) u ur r ->
      effective (clock s) ur ->
      link_of (working s) r rp p ->
      r_is_system_role r = Some true ->
      check_permission (u_id u) (p_resource p) (p_action p) org_id s
        = (Return true, s)) /\
  (forall (s : Session) (user_id : uuid) (resource action : string)
          (org_id : option uuid),
      check_permission user_id resource action org_id s = (Return true, s) ->
      (exists u ur r rp p,
          u_id u = user_id /\ p_resource p = resource /\ p_action p = action /\
          u_is_active u = Some true /\
          grant_of (working s) u ur r /\ effective (clock s) ur /\
          link_of (working s) r rp p /\ r_is_system_role r = Some true) \/
      org_id = None \/
      (exists u, In u (users (working s)) /\ u_id u = user_id /\
                 u_organization_id u = org_id)).
Proof.
  split.
  - intros s u ur r rp p org_id Hact Hg He Hl Hsys.
    apply check_permission_true_iff. exists u, ur, r, rp, p.
    unfold allowing_path, org_passes. tauto.
  - intros s user_id resource action org_id H.
    apply check_permission_true_iff in H
      as (u & ur & r & rp & p & Hg & Hl & E1 & E2 & E3 & Hact & He & Ho).
    destruct Ho as [Ho | [(o & Ho & Hu) | Ho]].
    + right. now left.
    + right. right. exists u. repeat split; try apply Hg; congruence.
    + left. exists u, ur, r, rp, p. tauto.
Qed.

(** The Super Admin role opens system.admin to Alice in any organization. *)
Lemma system_role_bypass_is_per_role_witness :
  check_permission 1%N "system" "admin" (Some Acme.org2)
    (Acme.session [Acme.alice_super; Acme.alice_regular])
  = (Return true, Acme.session [Acme.alice_super; Acme.alice_regular]).
Proof.
  refine (proj1 system_role_bypass_is_per_role
            (Acme.session [Acme.alice_super; Acme.alice_regular])
            Acme.alice Acme.alice_super Acme.super Acme.super_sys_admin
            Acme.sys_admin (Some Acme.org2) _ _ _ _ _).
  - reflexivity.
  - unfold grant_of. simpl. intuition.
  - unfold effective. simpl. split; [reflexivity | ].
    right. exists 2000%Z. split; [reflexivity | lia].
  - unfold link_of. simpl. intuition.
  - reflexivity.
Defined.

(** ** Revoked and expired grants *)

Lemma lapsed_not_effective now ur : lapsed now ur -> ~ effective now ur.
Proof.
  unfold lapsed, effective.
  intros [H | (t & H1 & H2)] [Ha He]; [congruence | ].
  destruct He as [He | (t' & He & Hlt)]; [congruence | ].
  assert (t' = t) by congruence. lia.
Qed.

Lemma filter_flat_map {A B} (f : B -> bool) (F : A -> list B) (l : list A) :
  filter f (flat_map F l) = flat_map (fun x => filter f (F x)) l.
Proof.
  induction l as [|x l IH]; simpl; [reflexivity | ].
  now rewrite filter_app, IH.
Qed.

Lemma filter_none {A} (f : A -> bool) (l : list A) :
  (forall x, In x l -> f x = false) -> filter f l = [].
Proof.
  induction l as [|x l IH]; simpl; intros H; [reflexivity | ].
  rewrite (H x) by now left. apply IH. intros y Hy. apply H. now right.
Qed.

(** A grant whose rows the WHERE clause rejects can be dropped from
    [user_roles] without changing the selected rows. *)
Lemma filtered_join_drop_grant (W : joined -> bool) d l1 g l2 :
  user_roles d = l1 ++ g :: l2 ->
  (forall u r rp p, W (u, g, r, rp, p) = false) ->
  filter W (rbac_join d) = filter W (rbac_join (set_user_roles d (l1 ++ l2))).
Proof.
  intros E HW. unfold rbac_join. simpl. rewrite E, !filter_flat_map.
  apply flat_map_ext. intros u. rewrite !filter_flat_map.
  unfold matching at 4 8. rewrite !filter_app, !flat_map_app. f_equal.
  simpl filter. destruct (SQL.holds (on_u_ur u g)); [ | reflexivity].
  simpl flat_map.
  rewrite (filter_none W); [reflexivity | ].
  intros row Hrow.
  apply in_flat_map in Hrow as (r & _ & Hrow).
  apply in_flat_map in Hrow as (rp & _ & Hrow).
  apply in_map_iff in Hrow as (p & <- & _). apply HW.
Qed.

Lemma lapsed_rejected_by_check now user_id resource action org_id g :
  lapsed now g ->
  forall u r rp p,
    SQL.holds (check_permission_where now user_id resource action org_id
                 (u, g, r, rp, p)) = false.
Proof.
  intros Hl u r rp p.
  destruct (SQL.holds _) eqn:E; [ | reflexivity].
  apply check_permission_where_iff in E.
  exfalso. apply (lapsed_not_effective now g Hl). tauto.
Qed.

Lemma lapsed_rejected_by_listing now user_id g :
  lapsed now g ->
  forall u r rp p,
    SQL.holds (get_user_permissions_where now user_id (u, g, r, rp, p)) = false.
Proof.
  intros Hl u r rp p.
  destruct (SQL.holds _) eqn:E; [ | reflexivity].
  apply get_user_permissions_where_iff in E.
  exfalso. apply (lapsed_not_effective now g Hl). tauto.
Qed.

(** C3.  A grant that is revoked ([is_active = false]) or expired
    ([expires_at] earlier than the clock) contributes nothing: both
    [check_permission] and [get_user_permissions] answer as on the store
    without that row, whatever links the role still has; and when every
    other grant of the user is lapsed as well, the check returns [False] and
    the listing is empty.  An expired grant needs no revocation for this. *)
Theorem lapsed_grant_resolves_nothing :
  forall (s : Session) (l1 : list UserRole) (g : UserRole) (l2 : list UserRole)
         (user_id : uuid) (resource action : string) (org_id : option uuid),
    user_roles (working s) = l1 ++ g :: l2 ->
    lapsed (clock s) g ->
    let s' := with_working s (set_user_roles (working s) (l1 ++ l2)) in
    fst (check_permission user_id resource action org_id s)
      = fst (check_permission user_id resource action org_id s') /\
    fst (get_user_permissions user_id s) = fst (get_user_permissions user_id s') /\
    ((forall ur, In ur (l1 ++ l2) -> ur_user_id ur = Some user_id ->
                 lapsed (clock s) ur) ->
     check_permission user_id resource action org_id s = (Return false, s) /\
     get_user_permissions user_id s = (Return [], s)).
Proof.
  intros s l1 g l2 user_id resource action org_id E Hl s'.
  split; [ | split].
  - rewrite !check_permission_runs. simpl. unfold check_permission_query.
    rewrite (filtered_join_drop_grant _ _ l1 g l2 E); [reflexivity | ].
    now apply lapsed_rejected_by_check.
  - unfold get_user_permissions, bind, db_execute, ret. simpl.
    unfold get_user_permissions_query.
    rewrite (filtered_join_drop_grant _ _ l1 g l2 E); [reflexivity | ].
    now apply lapsed_rejected_by_listing.
  - intros Hall.
    assert (Hany : forall u ur r, grant_of (working s) u ur r ->
                     u_id u = user_id -> ~ effective (clock s) ur).
    { intros u ur r (_ & Hur & _ & Hid & _) <-.
      apply lapsed_not_effective.
      rewrite E in Hur. apply in_app_or in Hur as [Hur | [<- | Hur]];
        auto using in_or_app. }
    split.
    + apply check_permission_false_iff.
      intros (u & ur & r & rp & p & Hg & _ & Hid & _ & _ & _ & He & _).
      exact (Hany u ur r Hg Hid He).
    + unfold get_user_permissions, bind, db_execute, ret. simpl.
      unfold get_user_permissions_query.
      rewrite filter_none; [reflexivity | ].
      intros [[[[u ur] r] rp] p] Hin.
      destruct (SQL.holds _) eqn:Ew; [ | reflexivity].
      apply in_rbac_join in Hin as [Hg _].
      apply get_user_permissions_where_iff in Ew as (Hid & _ & He).
      exfalso. exact (Hany u ur r Hg Hid He).
Qed.

(** Alice's grant expired at 999, the clock is at 1000, nobody revoked it. *)
Lemma lapsed_grant_resolves_nothing_witness :
  let g := Acme.grant 40%N 10%N (Some 999%Z) true in
  ur_is_active g = Some true /\
  check_permission 1%N "knowledge_base" "read" (Some Acme.org1) (Acme.session [g])
    = (Return false, Acme.session [g]) /\
  get_user_permissions 1%N (Acme.session [g]) = (Return [], Acme.session [g]).
Proof.
  intros g. split; [reflexivity | ].
  refine (proj2 (proj2 (lapsed_grant_resolves_nothing (Acme.session [g])
            [] g [] 1%N "knowledge_base" "read" (Some Acme.org1) _ _)) _).
  - reflexivity.
  - right. exists 999%Z. split; [reflexivity | simpl; lia].
  - intros ur [].
Defined.

(** ** The listing and the check agree *)

Lemma in_order_insert x y l : In x (order_insert y l) <-> x = y \/ In x l.
Proof.
  induction l as [|z l IH]; simpl.
  - intuition.
  - destruct (order_leb y z); simpl; rewrite ?IH; intuition.
Qed.

Lemma in_order_by x l : In x (order_by l) <-> In x l.
Proof.
  unfold order_by. induction l as [|y l IH]; simpl; [tauto | ].
  rewrite in_order_insert, IH. intuition.
Qed.

(** A path that the WHERE clause of [get_user_permissions] accepts. *)
Lemma listed_iff user_id now d pd :
  In pd (get_user_permissions_query user_id now d) <->
  exists u ur r rp p,
    grant_of d u ur r /\ link_of d r rp p /\ u_id u = user_id /\
    u_is_active u = Some true /\ effective now ur /\
    pd = select_permission (u, ur, r, rp, p).
Proof.
  unfold get_user_permissions_query.
  rewrite in_order_by, nodup_In, in_map_iff. split.
  - intros ([[[[u ur] r] rp] p] & E & Hin).
    apply filter_In in Hin as [Hin Hw].
    apply in_rbac_join in Hin. apply get_user_permissions_where_iff in Hw.
    exists u, ur, r, rp, p. intuition.
  - intros (u & ur & r & rp & p & Hg & Hl & Hw1 & Hw2 & Hw3 & E).
    exists (u, ur, r, rp, p). split; [auto | ].
    apply filter_In. split.
    + now apply in_rbac_join.
    + apply get_user_permissions_where_iff. auto.
Qed.

Lemma same_key_same_row {A} (key : A -> uuid) (l : list A) a b :
  NoDup (map key l) -> In a l -> In b l -> key a = key b -> a = b.
Proof.
  induction l as [|x l IH]; simpl; [contradiction | ].
  intros Hnd [-> | Ha] [-> | Hb] E; inversion Hnd as [|? ? Hx Hnd']; subst; auto.
  - contradiction Hx. rewrite E. now apply in_map.
  - contradiction Hx. rewrite <- E. now apply in_map.
Qed.

(** C5.  [get_user_permissions] returns a list, and a pair (resource,
    action) is in it exactly when [check_permission] allows the pair with no
    organization argument; every pair the check allows, with any
    organization argument, is listed; and, [users.id] being a key, the
    listed pairs are exactly those allowed with the user's own organization,
    the argument [require_permission] passes. *)
Theorem listing_agrees_with_check :
  forall (s : Session) (user_id : uuid),
  exists l : list permission_dict,
    get_user_permissions user_id s = (Return l, s) /\
    forall (resource action : string),
      let listed := exists n d, In {| pd_resource := resource; pd_action := action;
                                      pd_name := n; pd_description := d |} l in
      (listed <-> check_permission user_id resource action None s = (Return true, s)) /\
      (forall org_id,
          check_permission user_id resource action org_id s = (Return true, s) ->
          listed) /\
      (forall u,
          NoDup (map u_id (users (working s))) ->
          In u (users (working s)) -> u_id u = user_id ->
          (listed <->
           check_permission user_id resource action (u_organization_id u) s
             = (Return true, s))).
Proof.
  intros s user_id.
  exists (get_user_permissions_query user_id (clock s) (working s)).
  split; [reflexivity | ].
  intros resource action listed.
  assert (Hlisted : listed <->
            exists u ur r rp p,
              grant_of (working s) u ur r /\ link_of (working s) r rp p /\
              u_id u = user_id /\ u_is_active u = Some true /\
              effective (clock s) ur /\
              p_resource p = resource /\ p_action p = action).
  { unfold listed. split.
    - intros (n & d & H). apply listed_iff in H
        as (u & ur & r & rp & p & Hg & Hl & H1 & H2 & H3 & E).
      exists u, ur, r, rp, p. injection E as -> -> _ _. tauto.
    - intros (u & ur & r & rp & p & Hg & Hl & H1 & H2 & H3 & <- & <-).
      exists (p_name p), (p_description p). apply listed_iff.
      exists u, ur, r, rp, p. tauto. }
  assert (Hall : forall org_id,
            check_permission user_id resource action org_id s = (Return true, s) ->
            listed).
  { intros org_id H. apply Hlisted.
    apply check_permission_true_iff in H as (u & ur & r & rp & p & H).
    exists u, ur, r, rp, p. unfold allowing_path in H. tauto. }
  split; [ | split].
  - split; [ | apply Hall].
    intros H. apply Hlisted in H as (u & ur & r & rp & p & H).
    apply check_permission_true_iff. exists u, ur, r, rp, p.
    unfold allowing_path, org_passes. tauto.
  - exact Hall.
  - intros u Hpk Hu Hid. split; [ | apply Hall].
    intros H. apply Hlisted in H as (u' & ur & r & rp & p & Hg & H).
    assert (u' = u) as ->.
    { apply (same_key_same_row u_id (users (working s))); auto;
        [apply Hg | intuition congruence]. }
    apply check_permission_true_iff. exists u, ur, r, rp, p.
    unfold allowing_path. pose proof (own_org_passes u r). tauto.
Qed.

(** Alice's listing holds knowledge_base.read, and the check made with her
    organization allows it. *)
Lemma listing_agrees_with_check_witness :
  exists l,
    get_user_permissions 1%N (Acme.session [Acme.alice_regular])
      = (Return l, Acme.session [Acme.alice_regular]) /\
    ((exists n d, In {| pd_resource := "knowledge_base"; pd_action := "read";
                        pd_name := n; pd_description := d |} l) <->
     check_permission 1%N "knowledge_base" "read" (Some Acme.org1)
       (Acme.session [Acme.alice_regular])
       = (Return true, Acme.session [Acme.alice_regular])).
Proof.
  destruct (listing_agrees_with_check (Acme.session [Acme.alice_regular]) 1%N)
    as (l & Hl & H).
  exists l. split; [exact Hl | ].
  refine (proj2 (proj2 (H "knowledge_base" "read")) Acme.alice _ _ _).
  - simpl. constructor; [intros [] | constructor].
  - simpl. now left.
  - reflexivity.
Defined.

(** Asked for another organization the check allows less than the listing
    shows: only what a system role carries. *)
Example listing_and_foreign_organization :
  let s := Acme.session [Acme.alice_regular] in
  fst (get_user_permissions 1%N s)
  = Return [ {| pd_resource := "knowledge_base"; pd_action := "read";
                pd_name := "knowledge_base.read";
                pd_description := Some "View knowledge bases" |} ] /\
  fst (check_permission 1%N "knowledge_base" "read" (Some Acme.org2) s)
  = Return false.
Proof. split; reflexivity. Qed.

(** ** [assign_role] *)

Lemma le_max_of (k : uuid) (l : list uuid) :
  In k l -> (k <= fold_right N.max 0 l)%N.
Proof.
  induction l as [|x l IH]; simpl; [contradiction | ].
  intros [-> | H]; [lia | specialize (IH H); lia].
Qed.

Lemma gen_random_uuid_fresh (l : list uuid) : ~ In (gen_random_uuid l) l.
Proof.
  unfold gen_random_uuid. intros H. apply le_max_of in H. lia.
Qed.

Lemma fresh_key_not_taken {A} (key : A -> uuid) (l : list A) :
  existsb (fun q => N.eqb (key q) (gen_random_uuid (map key l))) l = false.
Proof.
  destruct (existsb _ l) eqn:E; [ | reflexivity].
  apply existsb_exists in E as (q & Hq & E). apply N.eqb_eq in E.
  exfalso. apply (gen_random_uuid_fresh (map key l)).
  rewrite <- E. now apply in_map.
Qed.

Lemma clean_eta (s : Session) : clean s -> committed_at s (committed s) = s.
Proof.
  destruct s as [c w p k]. unfold clean, committed_at. simpl.
  intros [-> ->]. reflexivity.
Qed.

(** What [assign_role] does, on any session: it commits the staged objects
    and the new grant together, or undoes the transaction. *)
Lemma assign_role_runs user_id role_id assigned_by expires_at s :
  assign_role user_id role_id assigned_by expires_at s =
  match insert_all (clock s)
          (pending s ++ [UserRoleObject user_id role_id assigned_by expires_at])
          (working s) with
  | Return d => (Return true, committed_at s d)
  | Raise _ => (Return false, committed_at s (committed s))
  end.
Proof.
  unfold assign_role, try_except, bind, db_add, db_commit, db_flush,
    db_rollback, bind, ret. simpl.
  destruct (insert_all _ _ _); reflexivity.
Qed.

(** On a clean session only the new grant is inserted. *)
Lemma assign_role_clean user_id role_id assigned_by expires_at s :
  clean s ->
  let d := committed s in
  let row := user_role_row (clock s) d user_id role_id assigned_by expires_at in
  assign_role user_id role_id assigned_by expires_at s =
  match user_role_violation row d with
  | Some _ => (Return false, s)
  | None => (Return true, committed_at s (set_user_roles d (user_roles d ++ [row])))
  end.
Proof.
  intros Hc d row. rewrite assign_role_runs.
  pose proof (clean_eta s Hc) as Heta. destruct Hc as [Hw Hp].
  rewrite Hp, Hw. simpl. fold d. fold row.
  destruct (user_role_violation row d); [exact (f_equal _ Heta) | reflexivity].
Qed.

Lemma existing_grant_violates now d user_id role_id assigned_by expires_at g :
  In g (user_roles d) -> grant_row_for user_id role_id g ->
  user_role_violation
    (user_role_row now d user_id role_id assigned_by expires_at) d <> None.
Proof.
  intros Hin [Hu Hr].
  assert (E : existsb
            (same_user_role
               (user_role_row now d user_id role_id assigned_by expires_at))
            (user_roles d) = true).
  { apply existsb_exists. exists g. split; [assumption | ].
    unfold same_user_role. simpl. rewrite Hu, Hr. simpl.
    now rewrite !N.eqb_refl. }
  unfold user_role_violation. rewrite E.
  repeat match goal with
         | |- (if ?c then _ else _) <> None => destruct c; [discriminate | ]
         end.
  discriminate.
Qed.

Lemma same_user_role_sym a b : same_user_role a b = same_user_role b a.
Proof.
  unfold same_user_role.
  destruct (ur_user_id a) as [x|], (ur_user_id b) as [y|],
    (ur_role_id a) as [z|], (ur_role_id b) as [w|];
    simpl; try reflexivity;
    rewrite ?(N.eqb_sym x y), ?(N.eqb_sym z w); reflexivity.
Qed.

Lemma ForallOrdPairs_snoc {A} (R : A -> A -> Prop) (l : list A) (x : A) :
  ForallOrdPairs R l -> Forall (fun a => R a x) l -> ForallOrdPairs R (l ++ [x]).
Proof.
  induction 1 as [|a l Ha Hl IH]; simpl; intros Hx.
  - repeat constructor.
  - inversion Hx; subst. constructor; [ | auto].
    apply Forall_app. split; [assumption | ]. now constructor.
Qed.

(** An accepted INSERT keeps [unique_user_role]. *)
Lemma unique_user_role_insert d row :
  unique_user_role d -> user_role_violation row d = None ->
  unique_user_role (set_user_roles d (user_roles d ++ [row])).
Proof.
  unfold unique_user_role. simpl. intros Hu Hv.
  apply ForallOrdPairs_snoc; [assumption | ].
  assert (E : existsb (same_user_role row) (user_roles d) = false).
  { unfold user_role_violation in Hv.
    repeat match type of Hv with
           | (if ?c then _ else _) = None =>
               destruct c eqn:?; [discriminate Hv | ]
           end.
    reflexivity. }
  apply Forall_forall. intros a Ha.
  rewrite same_user_role_sym.
  destruct (same_user_role row a) eqn:Es; [ | reflexivity].
  assert (existsb (same_user_role row) (user_roles d) = true)
    by (apply existsb_exists; eauto).
  congruence.
Qed.

(** C10.  [assign_role] never raises.  On every session it returns a
    boolean and leaves a session with no open work, and when it returns
    [False] the committed database is the one it started from.  On a clean
    session: if the INSERT violates a constraint it returns [False] and the
    session is unchanged, otherwise it returns [True] and the database has
    gained exactly the new grant row; a grant that already exists for the
    pair (user_id, role_id) is such a violation. *)
Theorem assign_role_atomic :
  forall (s : Session) (user_id role_id assigned_by : uuid)
         (expires_at : option timestamp),
    (exists b s',
        assign_role user_id role_id assigned_by expires_at s = (Return b, s') /\
        clean s' /\
        (b = false -> committed s' = committed s)) /\
    (clean s ->
     let d := committed s in
     let row := user_role_row (clock s) d user_id role_id assigned_by expires_at in
     (user_role_violation row d <> None /\
      assign_role user_id role_id assigned_by expires_at s = (Return false, s)) \/
     (user_role_violation row d = None /\
      assign_role user_id role_id assigned_by expires_at s =
      (Return true, committed_at s (set_user_roles d (user_roles d ++ [row]))))) /\
    (clean s ->
     forall g, In g (user_roles (committed s)) ->
               grant_row_for user_id role_id g ->
               assign_role user_id role_id assigned_by expires_at s
                 = (Return false, s)).
Proof.
  intros s user_id role_id assigned_by expires_at. split; [ | split].
  - rewrite assign_role_runs. destruct (insert_all _ _ _) as [d | e].
    + exists true, (committed_at s d). unfold clean. simpl.
      repeat split; auto. discriminate.
    + exists false, (committed_at s (committed s)). unfold clean. simpl. auto.
  - intros Hc d row.
    pose proof (assign_role_clean user_id role_id assigned_by expires_at s Hc) as H.
    cbv zeta in H. fold d row in H.
    destruct (user_role_violation row d); [left | right]; split;
      congruence.
  - intros Hc g Hin Hg.
    pose proof (assign_role_clean user_id role_id assigned_by expires_at s Hc) as H.
    pose proof (existing_grant_violates (clock s) (committed s) user_id role_id
                  assigned_by expires_at g Hin Hg) as Hv.
    cbv zeta in H.
    destruct (user_role_violation _ _); [exact H | congruence].
Qed.

(** Alice is granted Regular User by herself: one row is inserted. *)
Lemma assign_role_atomic_witness :
  assign_role 1%N 10%N 1%N None (Acme.session [])
  = (Return true,
     Acme.session [ {| ur_id := 1%N; ur_user_id := Some 1%N;
                       ur_role_id := Some 10%N; ur_assigned_by := Some 1%N;
                       ur_assigned_at := Some 1000%Z; ur_expires_at := None;
                       ur_is_active := Some true |} ]).
Proof.
  assert (Hc : clean (Acme.session [])) by (split; reflexivity).
  destruct (proj1 (proj2 (assign_role_atomic (Acme.session []) 1%N 10%N 1%N None)) Hc)
    as [[Hv _] | [_ H]].
  - exfalso. apply Hv. reflexivity.
  - exact H.
Defined.

(** A revoked grant of Regular User to Alice exists; granting the role again
    returns [False] and the row stays revoked. *)
Lemma regrant_does_not_reactivate :
  let g := Acme.grant 40%N 10%N None false in
  let s := Acme.session [g] in
  assign_role 1%N 10%N 1%N (Some 5000%Z) s = (Return false, s) /\
  user_roles (committed s) = [g] /\
  ur_is_active g = Some false.
Proof. repeat split. Qed.

(** C4, amended.  [assign_role] only inserts.  On a clean session, when a
    grant row for (user_id, role_id) exists the call returns [False] and
    changes nothing: no second row is inserted and the existing row is not
    touched.  Every call keeps (user_id, role_id) unique in the grant
    table. *)
Theorem assign_role_keeps_existing_grant :
  forall (s : Session) (user_id role_id assigned_by : uuid)
         (expires_at : option timestamp),
    clean s ->
    (forall g, In g (user_roles (committed s)) ->
               grant_row_for user_id role_id g ->
               assign_role user_id role_id assigned_by expires_at s
                 = (Return false, s)) /\
    (unique_user_role (committed s) ->
     forall b s',
       assign_role user_id role_id assigned_by expires_at s = (Return b, s') ->
       unique_user_role (committed s') /\ unique_user_role (working s')).
Proof.
  intros s user_id role_id assigned_by expires_at Hc.
  pose proof (assign_role_clean user_id role_id assigned_by expires_at s Hc) as H.
  cbv zeta in H. split.
  - intros g Hin Hg.
    pose proof (existing_grant_violates (clock s) (committed s) user_id role_id
                  assigned_by expires_at g Hin Hg) as Hv.
    destruct (user_role_violation _ _); [exact H | congruence].
  - intros Hu b s' E. rewrite H in E.
    destruct (user_role_violation _ _) eqn:Ev; injection E as <- <-.
    + destruct Hc as [-> _]. auto.
    + simpl. split; now apply unique_user_role_insert.
Qed.

(** Granting Alice the role she already holds changes nothing. *)
Lemma assign_role_keeps_existing_grant_witness :
  assign_role 1%N 10%N 1%N None (Acme.session [Acme.alice_regular])
  = (Return false, Acme.session [Acme.alice_regular]).
Proof.
  assert (Hc : clean (Acme.session [Acme.alice_regular])) by (split; reflexivity).
  refine (proj1 (assign_role_keeps_existing_grant
                   (Acme.session [Acme.alice_regular]) 1%N 10%N 1%N None Hc)
            Acme.alice_regular _ _).
  - simpl. now left.
  - split; reflexivity.
Defined.

(** ** The check is a pure read *)

(** Nothing is written to [audit_logs], and nothing is staged, by a check
    that allows, by a check that denies, or by the wrapper that raises. *)
Lemma check_writes_no_audit_record :
  let s := Acme.session [Acme.alice_regular] in
  let allowed := check_permission 1%N "knowledge_base" "read" (Some Acme.org1) s in
  let denied := check_permission 1%N "system" "admin" (Some Acme.org1) s in
  let wrapped := require_permission "system" "admin" (ret tt) Acme.alice s in
  audit_logs (committed s) = [] /\
  fst allowed = Return true /\ fst denied = Return false /\
  audit_logs (committed (snd allowed)) = [] /\
  audit_logs (working (snd allowed)) = [] /\ pending (snd allowed) = [] /\
  audit_logs (committed (snd denied)) = [] /\
  audit_logs (working (snd denied)) = [] /\ pending (snd denied) = [] /\
  audit_logs (committed (snd wrapped)) = [] /\
  audit_logs (working (snd wrapped)) = [] /\ pending (snd wrapped) = [].
Proof. repeat split. Qed.

(** C8, amended.  A check has no side effect at all: [check_permission]
    returns a boolean and leaves the session, with every table of it
    ([audit_logs] included), as it was; [require_permission] then runs the
    handler when the check allowed, and raises 403 Forbidden with the
    session untouched when it denied. *)
Theorem check_permission_read_only :
  forall (s : Session) (current_user : User) (resource action : string),
    (forall user_id org_id,
        snd (check_permission user_id resource action org_id s) = s) /\
    exists b : bool,
      check_permission (u_id current_user) resource action
        (u_organization_id current_user) s = (Return b, s) /\
      forall (A : Type) (func : M A),
        require_permission resource action func current_user s =
        if b then func s
        else (Raise (HTTPException 403
                 ("Insufficient permissions: " ++ resource ++ "." ++ action)%string),
              s).
Proof.
  intros s current_user resource action. split; [reflexivity | ].
  eexists. split; [apply check_permission_runs | ].
  intros A func. unfold require_permission, bind.
  rewrite check_permission_runs.
  destruct (0 <? _)%nat; reflexivity.
Qed.

(** ** [seed_permissions] *)

Lemma for_each_cons_bind {A} (x : A) (rest : list A) (body : A -> M unit)
    (k : M unit) (s : Session) :
  bind (for_each (x :: rest) body) (fun _ => k) s =
  match body x s with
  | (Return _, s') => bind (for_each rest body) (fun _ => k) s'
  | (Raise e, s') => (Raise e, s')
  end.
Proof.
  simpl. unfold bind. destruct (body x s) as [[[] | e] s']; reflexivity.
Qed.

(** One turn of the loop: the object staged by the turn before is inserted,
    then the entry is looked up by name and staged when it is missing. *)
Lemma seed_one_runs (perm_data : permission_dict) (s : Session) :
  seed_one perm_data s =
  match insert_all (clock s) (pending s) (working s) with
  | Raise e => (Raise e, committed_at s (committed s))
  | Return d0 =>
      (Return tt,
       {| committed := committed s; working := d0;
          pending := match find (fun p => String.eqb (p_name p) (pd_name perm_data))
                                (permissions d0) with
                     | Some _ => []
                     | None => [PermissionObject perm_data]
                     end;
          clock := clock s |})
  end.
Proof.
  unfold seed_one, db_query_first, bind, db_flush.
  destruct (insert_all _ _ _) as [d0 | e]; [ | reflexivity].
  simpl. destruct (find _ _); reflexivity.
Qed.

(** The loop and the commit, told on the database: the staged objects are
    inserted, then the missing entries in turn; the first violated
    constraint aborts the transaction. *)
Lemma seeding_runs (l : list permission_dict) (s : Session) :
  bind (for_each l seed_one) (fun _ => db_commit) s =
  match insert_all (clock s) (pending s) (working s) with
  | Raise e => (Raise e, committed_at s (committed s))
  | Return d0 =>
      match seed_fold (clock s) l d0 with
      | Raise e => (Raise e, committed_at s (committed s))
      | Return d => (Return tt, committed_at s d)
      end
  end.
Proof.
  revert s. induction l as [|perm_data rest IH]; intros s.
  - unfold bind, db_commit, bind, db_flush. simpl.
    destruct (insert_all _ _ _); reflexivity.
  - rewrite for_each_cons_bind, seed_one_runs.
    destruct (insert_all (clock s) (pending s) (working s)) as [d0 | e];
      [ | reflexivity].
    rewrite IH. simpl.
    destruct (find _ (permissions d0)) as [p | ]; simpl.
    + destruct (seed_fold _ _ _); reflexivity.
    + destruct (permission_violation _ _) as [c | ]; [reflexivity | ].
      destruct (seed_fold _ _ _); reflexivity.
Qed.

Lemma seed_permissions_runs (s : Session) :
  seed_permissions s =
  match insert_all (clock s) (pending s) (working s) with
  | Raise e => (Raise e, committed_at s (committed s))
  | Return d0 =>
      match seed_fold (clock s) DEFAULT_PERMISSIONS d0 with
      | Raise e => (Raise e, committed_at s (committed s))
      | Return d => (Return tt, committed_at s d)
      end
  end.
Proof. apply seeding_runs. Qed.

Lemma find_by_name_iff (n : string) (l : list Permission) :
  find (fun p => String.eqb (p_name p) n) l <> None <-> In n (map p_name l).
Proof.
  induction l as [|p l IH]; simpl; [intuition | ].
  destruct (String.eqb_spec (p_name p) n) as [E | E].
  - split; [auto | discriminate].
  - rewrite IH. intuition.
Qed.

(** An INSERT touches one table, and only appends to it. *)
Lemma insert_object_frame now o d d' :
  insert_object now o d = Return d' ->
  users d' = users d /\ organizations d' = organizations d /\
  roles d' = roles d /\ role_permissions d' = role_permissions d /\
  audit_logs d' = audit_logs d /\
  (exists l, permissions d' = permissions d ++ l) /\
  (exists l, user_roles d' = user_roles d ++ l).
Proof.
  destruct o as [perm_data | user_id role_id assigned_by expires_at]; simpl.
  - destruct (permission_violation _ _); [discriminate | ].
    intros H. injection H as <-. simpl. repeat split; eauto.
    exists []. now rewrite app_nil_r.
  - destruct (user_role_violation _ _); [discriminate | ].
    intros H. injection H as <-. simpl. repeat split; eauto.
    exists []. now rewrite app_nil_r.
Qed.

Lemma insert_permission_adds now perm_data d d' :
  insert_object now (PermissionObject perm_data) d = Return d' ->
  In (pd_name perm_data) (map p_name (permissions d')).
Proof.
  simpl. destruct (permission_violation _ _); [discriminate | ].
  intros H. injection H as <-. simpl.
  rewrite map_app, in_app_iff. right. now left.
Qed.

Lemma NoDup_snoc {A} (l : list A) (x : A) :
  NoDup l -> ~ In x l -> NoDup (l ++ [x]).
Proof.
  intros Hl Hx. apply NoDup_app; auto.
  - repeat constructor. intros [].
  - intros a Ha [<- | []]. contradiction.
Qed.

Lemma not_taken {A B} (f : A -> B) (eqb : B -> B -> bool) (x : B) (l : list A) :
  (forall a b, eqb a b = true <-> a = b) ->
  existsb (fun q => eqb (f q) x) l = false -> ~ In x (map f l).
Proof.
  intros Heqb E Hin. apply in_map_iff in Hin as (q & <- & Hq).
  assert (existsb (fun q0 => eqb (f q0) (f q)) l = true).
  { apply existsb_exists. exists q. split; [assumption | now apply Heqb]. }
  congruence.
Qed.

(** An accepted INSERT keeps the keys of [permissions] unique. *)
Lemma insert_object_unique now o d d' :
  unique_permissions d -> insert_object now o d = Return d' ->
  unique_permissions d'.
Proof.
  unfold unique_permissions.
  destruct o as [perm_data | user_id role_id assigned_by expires_at]; simpl.
  - unfold permission_violation.
    destruct (existsb (fun q => N.eqb (p_id q) _) _) eqn:E1; [discriminate | ].
    destruct (existsb (fun q => String.eqb (p_name q) _) _) eqn:E2;
      [discriminate | ].
    destruct (existsb (fun q => andb _ _) _) eqn:E3; [discriminate | ].
    intros (H1 & H2 & H3) H. injection H as <-. simpl.
    rewrite !map_app. simpl. repeat split; apply NoDup_snoc; auto.
    + apply (not_taken p_id N.eqb _ _ N.eqb_eq E1).
    + apply (not_taken p_name String.eqb _ _ String.eqb_eq E2).
    + apply (not_taken permission_key
               (fun a b => String.eqb (fst a) (fst b) && String.eqb (snd a) (snd b))).
      * intros [a1 a2] [b1 b2]. simpl.
        rewrite andb_true_iff, !String.eqb_eq. intuition congruence.
      * exact E3.
  - destruct (user_role_violation _ _); [discriminate | ].
    intros H0 H. injection H as <-. exact H0.
Qed.

(** What every accepted INSERT keeps, a flush and the seeding keep. *)
Lemma insert_all_keeps (P : database -> Prop) now :
  (forall o d d', P d -> insert_object now o d = Return d' -> P d') ->
  forall os d d', P d -> insert_all now os d = Return d' -> P d'.
Proof.
  intros HP os. induction os as [|o os IH]; simpl; intros d d' Hd H.
  - injection H as <-. exact Hd.
  - destruct (insert_object now o d) as [d1 | e] eqn:E; [ | discriminate].
    eauto.
Qed.

Lemma seed_fold_keeps (P : database -> Prop) now :
  (forall o d d', P d -> insert_object now o d = Return d' -> P d') ->
  forall l d d', P d -> seed_fold now l d = Return d' -> P d'.
Proof.
  intros HP l. induction l as [|perm_data l IH]; cbn [seed_fold];
    intros d d' Hd H.
  - injection H as <-. exact Hd.
  - destruct (find _ _); [eauto | ].
    destruct (insert_object now (PermissionObject perm_data) d) as [d1 | e] eqn:E;
      [ | discriminate].
    eauto.
Qed.

(** After the seeding every entry is there by name. *)
Lemma seed_fold_names now l d d' :
  seed_fold now l d = Return d' ->
  forall perm_data, In perm_data l ->
    In (pd_name perm_data) (map p_name (permissions d')).
Proof.
  revert d. induction l as [|x l IH]; cbn [seed_fold In];
    intros d H perm_data Hin; [contradiction | ].
  assert (Hmono : forall d1 n, seed_fold now l d1 = Return d' ->
            In n (map p_name (permissions d1)) ->
            In n (map p_name (permissions d'))).
  { intros d1 n H1 Hn1.
    refine (seed_fold_keeps
              (fun d2 => In n (map p_name (permissions d2))) now _ l d1 d' Hn1 H1).
    intros o d2 d3 Hn E.
    apply insert_object_frame in E as (_ & _ & _ & _ & _ & (l' & ->) & _).
    rewrite map_app, in_app_iff. now left. }
  destruct (find _ (permissions d)) as [p | ] eqn:Ef.
  - destruct Hin as [<- | Hin]; [ | eauto].
    apply (Hmono d); [assumption | ].
    apply find_by_name_iff. congruence.
  - destruct (insert_object now (PermissionObject x) d) as [d1 | e] eqn:E;
      [ | discriminate].
    destruct Hin as [<- | Hin]; [ | eauto].
    apply (Hmono d1); [assumption | ].
    now apply insert_permission_adds in E.
Qed.

(** When every entry is there by name the seeding inserts nothing. *)
Lemma seed_fold_present now l d :
  (forall perm_data, In perm_data l ->
     In (pd_name perm_data) (map p_name (permissions d))) ->
  seed_fold now l d = Return d.
Proof.
  induction l as [|x l IH]; simpl; intros H; [reflexivity | ].
  destruct (find _ (permissions d)) eqn:Ef.
  - apply IH. auto.
  - exfalso. apply (find_by_name_iff (pd_name x) (permissions d)); auto.
Qed.

(** On the empty store the seeding inserts the 17 entries of
    [DEFAULT_PERMISSIONS]: no organization, invite or profile permission is
    among them, and no role is created. *)
Lemma seed_misses_documented_rows :
  let run := seed_permissions (fresh_session 0%Z empty_database) in
  let d := committed (snd run) in
  let has r a := existsb (fun p => String.eqb (p_resource p) r
                                   && String.eqb (p_action p) a) (permissions d) in
  fst run = Return tt /\
  List.length (permissions d) = 17%nat /\
  has "organization" "read" = false /\ has "organization" "update" = false /\
  has "user" "invite" = false /\
  has "profile" "read" = false /\ has "profile" "update" = false /\
  roles d = [] /\ role_permissions d = [].
Proof. vm_compute. repeat split. Qed.

(** C6, amended.  After [seed_permissions] on the empty store the
    Permission table holds one row for each of system.admin,
    user.create/read/update/delete, knowledge_base.create/read/update/delete,
    analytics.read/admin, conversation.create/read/update/delete and
    scraping.submit/admin, in this order, and the run has inserted no role
    and no role-permission link: [seed_permissions] seeds permissions
    only. *)
Theorem seed_on_empty_store :
  forall now : timestamp,
  exists s' : Session,
    seed_permissions (fresh_session now empty_database) = (Return tt, s') /\
    clean s' /\
    map (fun p => (p_name p, p_resource p, p_action p)) (permissions (committed s'))
    = [ ("system.admin", "system", "admin");
        ("user.create", "user", "create");
        ("user.read", "user", "read");
        ("user.update", "user", "update");
        ("user.delete", "user", "delete");
        ("knowledge_base.create", "knowledge_base", "create");
        ("knowledge_base.read", "knowledge_base", "read");
        ("knowledge_base.update", "knowledge_base", "update");
        ("knowledge_base.delete", "knowledge_base", "delete");
        ("analytics.read", "analytics", "read");
        ("analytics.admin", "analytics", "admin");
        ("conversation.create", "conversation", "create");
        ("conversation.read", "conversation", "read");
        ("conversation.update", "conversation", "update");
        ("conversation.delete", "conversation", "delete");
        ("scraping.submit", "scraping", "submit");
        ("scraping.admin", "scraping", "admin") ] /\
    unique_permissions (committed s') /\
    roles (committed s') = [] /\
    role_permissions (committed s') = [] /\
    users (committed s') = [] /\ user_roles (committed s') = [] /\
    audit_logs (committed s') = [].
Proof.
  intros now. eexists. split; [vm_compute; reflexivity | ].
  split; [split; reflexivity | ].
  split; [reflexivity | ].
  split; [ | repeat split].
  unfold unique_permissions. simpl.
  repeat split;
    repeat (constructor; [simpl; intuition (discriminate || congruence) | ]);
    constructor.
Qed.

(** The store [Acme.renamed] satisfies every constraint and holds the pair
    (system, admin) under the name root: the entry system.admin is not found
    by name, its INSERT violates [unique_resource_action] and the run
    raises; so does a repeated run, made in a new session on the database
    the first one left. *)
Lemma seed_raises_on_renamed_permission :
  let s := fresh_session 0%Z Acme.renamed in
  unique_permissions (committed s) /\
  seed_permissions s = (Raise (IntegrityError "unique_resource_action"), s) /\
  fst (seed_permissions
         (fresh_session 0%Z (committed (snd (seed_permissions s)))))
  = Raise (IntegrityError "unique_resource_action").
Proof.
  split; [ | split; vm_compute; reflexivity].
  unfold unique_permissions. simpl.
  repeat split; repeat constructor; intros [].
Qed.

(** C7, amended.  On every session on which a run of [seed_permissions]
    completes, a second run completes too, inserts nothing and leaves the
    session as the first run left it.  After the run every entry of
    [DEFAULT_PERMISSIONS] is there by name, an entry being skipped when a
    row of that name exists; the keys of the Permission table are as unique
    as before, and roles and role-permission links are untouched. *)
Theorem seed_permissions_idempotent :
  forall (s s1 : Session),
    seed_permissions s = (Return tt, s1) ->
    seed_permissions s1 = (Return tt, s1) /\
    clean s1 /\
    (forall perm_data, In perm_data DEFAULT_PERMISSIONS ->
        In (pd_name perm_data) (map p_name (permissions (committed s1)))) /\
    (unique_permissions (working s) -> unique_permissions (committed s1)) /\
    roles (committed s1) = roles (working s) /\
    role_permissions (committed s1) = role_permissions (working s).
Proof.
  intros s s1 H. rewrite seed_permissions_runs in H.
  destruct (insert_all (clock s) (pending s) (working s)) as [d0 | e] eqn:E0;
    [ | discriminate].
  destruct (seed_fold (clock s) DEFAULT_PERMISSIONS d0) as [d | e] eqn:E1;
    [ | discriminate].
  injection H as <-.
  pose proof (seed_fold_names _ _ _ _ E1) as Hnames.
  split; [ | split; [ | split; [ | split; [ | split] ] ] ].
  - rewrite seed_permissions_runs.
    cbn [committed_at pending working clock committed insert_all].
    now rewrite (seed_fold_present _ _ _ Hnames).
  - split; reflexivity.
  - exact Hnames.
  - simpl. intros Hu.
    apply (seed_fold_keeps unique_permissions (clock s)
             (insert_object_unique (clock s)) _ _ _) with (2 := E1).
    apply (insert_all_keeps unique_permissions (clock s)
             (insert_object_unique (clock s)) _ _ _ Hu E0).
  - simpl.
    refine (seed_fold_keeps (fun d2 => roles d2 = roles (working s)) (clock s)
              _ _ d0 d _ E1).
    + intros o d2 d3 Hd Ei. apply insert_object_frame in Ei. intuition congruence.
    + refine (insert_all_keeps (fun d2 => roles d2 = roles (working s)) (clock s)
                _ _ _ _ eq_refl E0).
      intros o d2 d3 Hd Ei. apply insert_object_frame in Ei. intuition congruence.
  - simpl.
    refine (seed_fold_keeps
              (fun d2 => role_permissions d2 = role_permissions (working s))
              (clock s) _ _ d0 d _ E1).
    + intros o d2 d3 Hd Ei. apply insert_object_frame in Ei. intuition congruence.
    + refine (insert_all_keeps
                (fun d2 => role_permissions d2 = role_permissions (working s))
                (clock s) _ _ _ _ eq_refl E0).
      intros o d2 d3 Hd Ei. apply insert_object_frame in Ei. intuition congruence.
Qed.

(** Seeding the empty store twice. *)
Lemma seed_permissions_idempotent_witness :
  let s1 := snd (seed_permissions (fresh_session 0%Z empty_database)) in
  seed_permissions s1 = (Return tt, s1).
Proof.
  intros s1.
  refine (proj1 (seed_permissions_idempotent
                   (fresh_session 0%Z empty_database) s1 _)).
  vm_compute. reflexivity.
Defined.

(** * Further properties of the code of RBAC.md *)

(** ** Users the checker does not know *)

(** X1.  When no row of [users] with the given id is active (the user is
    unknown, deactivated, or its [is_active] is NULL), [check_permission]
    returns [False] for every resource, action and organization, whatever
    roles are granted, and [get_user_permissions] returns the empty list. *)
Theorem unknown_or_inactive_user_denied :
  forall (s : Session) (user_id : uuid),
    (forall u, In u (users (working s)) -> u_id u = user_id ->
               u_is_active u <> Some true) ->
    (forall resource action org_id,
        check_permission user_id resource action org_id s = (Return false, s)) /\
    get_user_permissions user_id s = (Return [], s).
Proof.
  intros s user_id Hnone. split.
  - intros resource action org_id. apply check_permission_false_iff.
    intros (u & ur & r & rp & p & Hg & _ & Hid & _ & _ & Hact & _).
    apply (Hnone u); [apply Hg | assumption | assumption].
  - unfold get_user_permissions, bind, db_execute, ret. simpl.
    unfold get_user_permissions_query.
    rewrite filter_none; [reflexivity | ].
    intros [[[[u ur] r] rp] p] Hin.
    destruct (SQL.holds _) eqn:Ew; [ | reflexivity].
    apply in_rbac_join in Hin as [Hg _].
    apply get_user_permissions_where_iff in Ew as (Hid & Hact & _).
    exfalso. apply (Hnone u); [apply Hg | assumption | assumption].
Qed.

(** Nobody has the id 99 in the tenant. *)
Lemma unknown_or_inactive_user_denied_witness :
  check_permission 99%N "system" "admin" None
    (Acme.session [Acme.alice_super])
  = (Return false, Acme.session [Acme.alice_super]).
Proof.
  refine (proj1 (unknown_or_inactive_user_denied
                   (Acme.session [Acme.alice_super]) 99%N _)
            "system" "admin" None).
  intros u [<- | []] H. discriminate H.
Defined.

(** ** Rows only ever add permissions *)

(** X2.  The checker has no denying rule: when every row of users,
    user_roles, roles, role_permissions and permissions is kept (rows may be
    added, the clock is the same), whatever [check_permission] allowed it
    still allows. *)
Theorem more_rows_never_deny :
  forall (s s' : Session) (user_id : uuid) (resource action : string)
         (org_id : option uuid),
    clock s' = clock s ->
    rows_included (working s) (working s') ->
    check_permission user_id resource action org_id s = (Return true, s) ->
    check_permission user_id resource action org_id s' = (Return true, s').
Proof.
  intros s s' user_id resource action org_id Hclock (I1 & I2 & I3 & I4 & I5) H.
  apply check_permission_true_iff in H as (u & ur & r & rp & p & Hg & Hl & Hw).
  apply check_permission_true_iff. exists u, ur, r, rp, p.
  unfold allowing_path, grant_of, link_of in *. rewrite Hclock.
  intuition.
Qed.

Lemma more_rows_never_deny_witness :
  check_permission 1%N "knowledge_base" "read" (Some Acme.org1)
    (Acme.session [Acme.alice_super; Acme.alice_regular])
  = (Return true, Acme.session [Acme.alice_super; Acme.alice_regular]).
Proof.
  refine (more_rows_never_deny (Acme.session [Acme.alice_regular])
            (Acme.session [Acme.alice_super; Acme.alice_regular])
            1%N "knowledge_base" "read" (Some Acme.org1) _ _ _).
  - reflexivity.
  - unfold rows_included. simpl.
    repeat split; try apply incl_refl.
    intros x [<- | []]. right. now left.
  - reflexivity.
Defined.

(** ** One entry for each pair *)

Lemma order_insert_NoDup x l :
  NoDup l -> ~ In x l -> NoDup (order_insert x l).
Proof.
  induction l as [|y l IH]; simpl; intros Hl Hx.
  - repeat constructor. intros [].
  - destruct (order_leb x y).
    + constructor; [exact Hx | exact Hl].
    + inversion Hl as [|? ? Hy Hl']; subst. constructor.
      * rewrite in_order_insert. intros [-> | H]; [apply Hx; now left | auto].
      * apply IH; [assumption | ]. intros H. apply Hx. now right.
Qed.

Lemma order_by_NoDup l : NoDup l -> NoDup (order_by l).
Proof.
  unfold order_by. induction 1 as [|x l Hx Hl IH]; simpl; [constructor | ].
  apply order_insert_NoDup; [assumption | ].
  fold (order_by l). now rewrite in_order_by.
Qed.

Lemma same_image_same_row {A B} (f : A -> B) (l : list A) a b :
  NoDup (map f l) -> In a l -> In b l -> f a = f b -> a = b.
Proof.
  induction l as [|x l IH]; simpl; [contradiction | ].
  intros Hnd [-> | Ha] [-> | Hb] E; inversion Hnd as [|? ? Hx Hnd']; subst; auto.
  - contradiction Hx. rewrite E. now apply in_map.
  - contradiction Hx. rewrite <- E. now apply in_map.
Qed.

Lemma NoDup_map_on {A B} (f : A -> B) (l : list A) :
  NoDup l -> (forall a b, In a l -> In b l -> f a = f b -> a = b) ->
  NoDup (map f l).
Proof.
  induction 1 as [|x l Hx Hl IH]; simpl; intros Hinj; [constructor | ].
  constructor.
  - intros Hin. apply in_map_iff in Hin as (y & E & Hy).
    assert (y = x) by (apply Hinj; auto). subst. contradiction.
  - apply IH. intros a b Ha Hb. apply Hinj; now right.
Qed.

(** X4.  When (resource, action) is unique in the Permission table, as
    [unique_resource_action] demands, the listing holds each pair at most
    once, however many roles and grants lead to it. *)
Theorem listing_one_entry_per_pair :
  forall (s : Session) (user_id : uuid),
    NoDup (map permission_key (permissions (working s))) ->
    exists l : list permission_dict,
      get_user_permissions user_id s = (Return l, s) /\
      NoDup (map listed_pair l).
Proof.
  intros s user_id Hkey.
  exists (get_user_permissions_query user_id (clock s) (working s)).
  split; [reflexivity | ].
  apply NoDup_map_on.
  - unfold get_user_permissions_query. apply order_by_NoDup, NoDup_nodup.
  - intros a b Ha Hb E.
    apply listed_iff in Ha as (u1 & ur1 & r1 & rp1 & p1 & _ & Hl1 & _ & _ & _ & ->).
    apply listed_iff in Hb as (u2 & ur2 & r2 & rp2 & p2 & _ & Hl2 & _ & _ & _ & ->).
    simpl in E.
    assert (p1 = p2) as ->; [ | reflexivity].
    apply (same_image_same_row permission_key (permissions (working s)));
      [assumption | apply Hl1 | apply Hl2 | exact E].
Qed.

(** Alice reaches knowledge_base.read through two grant rows: one entry. *)
Lemma listing_one_entry_per_pair_witness :
  exists l,
    get_user_permissions 1%N
      (Acme.session [Acme.alice_regular; Acme.grant 42%N 10%N None true])
    = (Return l, Acme.session [Acme.alice_regular; Acme.grant 42%N 10%N None true]) /\
    NoDup (map listed_pair l).
Proof.
  refine (listing_one_entry_per_pair
            (Acme.session [Acme.alice_regular; Acme.grant 42%N 10%N None true])
            1%N _).
  simpl. repeat constructor; simpl; intuition discriminate.
Defined.

(** ** More on [assign_role] *)

Lemma references_iff keys k :
  references keys (Some k) = true <-> In k keys.
Proof.
  simpl. rewrite existsb_exists. split.
  - intros (x & Hx & E). apply N.eqb_eq in E. now subst.
  - intros H. exists k. split; [assumption | apply N.eqb_refl].
Qed.

Lemma same_user_role_new now d user_id role_id assigned_by expires_at g :
  same_user_role (user_role_row now d user_id role_id assigned_by expires_at) g
    = true <-> grant_row_for user_id role_id g.
Proof.
  unfold same_user_role, grant_row_for.
  cbn [ur_user_id ur_role_id user_role_row].
  rewrite holds_and3, andb_true_iff, !holds_eq3_N. split.
  - intros [(k1 & E1 & ->) (k2 & E2 & ->)]. split; congruence.
  - intros [-> ->]. split; eauto.
Qed.

(** When the INSERT of a new grant is accepted. *)
Lemma user_role_accepted_iff now d user_id role_id assigned_by expires_at :
  user_role_violation
    (user_role_row now d user_id role_id assigned_by expires_at) d = None <->
  In user_id (map u_id (users d)) /\
  In role_id (map r_id (roles d)) /\
  In assigned_by (map u_id (users d)) /\
  (forall g, In g (user_roles d) -> ~ grant_row_for user_id role_id g).
Proof.
  unfold user_role_violation.
  cbn [ur_id ur_user_id ur_role_id ur_assigned_by user_role_row].
  rewrite (fresh_key_not_taken ur_id (user_roles d)).
  rewrite <- !references_iff.
  destruct (references (map u_id (users d)) (Some user_id));
    [ | simpl; split; [discriminate | intros (H & _); discriminate] ].
  destruct (references (map r_id (roles d)) (Some role_id));
    [ | simpl; split; [discriminate | intros (_ & H & _); discriminate] ].
  destruct (references (map u_id (users d)) (Some assigned_by));
    [ | simpl; split; [discriminate | intros (_ & _ & H & _); discriminate] ].
  cbn [negb].
  destruct (existsb _ (user_roles d)) eqn:E.
  - split; [discriminate | ]. intros (_ & _ & _ & H). exfalso.
    apply existsb_exists in E as (g & Hg & E).
    apply (H g Hg). now apply same_user_role_new in E.
  - split; [ | reflexivity]. intros _. repeat split.
    intros g Hg Hrow.
    assert (existsb
              (same_user_role
                 (user_role_row now d user_id role_id assigned_by expires_at))
              (user_roles d) = true).
    { apply existsb_exists. exists g. split; [assumption | ].
      now apply same_user_role_new. }
    congruence.
Qed.

(** X5.  On a session with no open work [assign_role] returns [True]
    exactly when the user, the role and the assigning user exist and the
    user has no grant row of that role yet, active or not; an unknown user,
    role or assigner makes it return [False] like a repeated grant.  The
    expiry plays no part. *)
Theorem assign_role_succeeds_iff :
  forall (s : Session) (user_id role_id assigned_by : uuid)
         (expires_at : option timestamp),
    clean s ->
    (fst (assign_role user_id role_id assigned_by expires_at s) = Return true <->
     In user_id (map u_id (users (committed s))) /\
     In role_id (map r_id (roles (committed s))) /\
     In assigned_by (map u_id (users (committed s))) /\
     (forall g, In g (user_roles (committed s)) ->
                ~ grant_row_for user_id role_id g)).
Proof.
  intros s user_id role_id assigned_by expires_at Hc.
  rewrite (assign_role_clean user_id role_id assigned_by expires_at s Hc).
  cbv zeta.
  rewrite <- (user_role_accepted_iff (clock s) (committed s) user_id role_id
                assigned_by expires_at).
  destruct (user_role_violation _ _); simpl; split; congruence.
Qed.

(** Nobody with the id 99 exists: the grant is refused. *)
Lemma assign_role_succeeds_iff_witness :
  fst (assign_role 99%N 10%N 1%N None (Acme.session [])) <> Return true.
Proof.
  assert (Hc : clean (Acme.session [])) by (split; reflexivity).
  intros H.
  apply (proj1 (assign_role_succeeds_iff (Acme.session []) 99%N 10%N 1%N None Hc))
    in H as (Hu & _).
  simpl in Hu. destruct Hu as [Hu | []]. discriminate Hu.
Defined.

(** X6.  Grant, then check.  After [assign_role] has returned [True] for an
    active user and a role, with no expiry or one that lies ahead, every
    permission linked to the role is allowed to the user in the user's own
    organization. *)
Theorem assigned_role_is_allowed :
  forall (s s' : Session) (u : User) (r : Role) (rp : RolePermission)
         (p : Permission) (assigned_by : uuid) (expires_at : option timestamp),
    clean s ->
    In u (users (committed s)) -> u_is_active u = Some true ->
    In r (roles (committed s)) ->
    link_of (committed s) r rp p ->
    (expires_at = None \/ exists t, expires_at = Some t /\ (clock s < t)%Z) ->
    assign_role (u_id u) (r_id r) assigned_by expires_at s = (Return true, s') ->
    check_permission (u_id u) (p_resource p) (p_action p) (u_organization_id u) s'
      = (Return true, s').
Proof.
  intros s s' u r rp p assigned_by expires_at Hc Hu Hact Hr Hl Hexp H.
  rewrite (assign_role_clean _ _ _ _ s Hc) in H. cbv zeta in H.
  destruct (user_role_violation _ _); [discriminate | ].
  injection H as <-.
  apply check_permission_true_iff.
  exists u, (user_role_row (clock s) (committed s) (u_id u) (r_id r)
               assigned_by expires_at), r, rp, p.
  unfold allowing_path, grant_of, link_of, effective in *. simpl.
  rewrite in_app_iff. simpl. pose proof (own_org_passes u r). intuition.
Qed.

Lemma assigned_role_is_allowed_witness :
  let s' := snd (assign_role 1%N 10%N 1%N (Some 2000%Z) (Acme.session [])) in
  check_permission 1%N "knowledge_base" "read" (Some Acme.org1) s'
  = (Return true, s').
Proof.
  intros s'.
  assert (Hc : clean (Acme.session [])) by (split; reflexivity).
  refine (assigned_role_is_allowed (Acme.session []) s' Acme.alice Acme.regular
            Acme.regular_kb_read Acme.kb_read 1%N (Some 2000%Z) Hc _ _ _ _ _ _).
  - simpl. now left.
  - reflexivity.
  - simpl. now left.
  - unfold link_of. simpl. intuition.
  - right. exists 2000%Z. split; [reflexivity | simpl; lia].
  - reflexivity.
Defined.

Lemma set_user_roles_back d l :
  set_user_roles (set_user_roles d l) (user_roles d) = d.
Proof. destruct d. reflexivity. Qed.

(** X7.  [assign_role] accepts an expiry that has already passed: the row
    is inserted as any other, and it changes no answer of
    [check_permission] and no listing of [get_user_permissions], for any
    user. *)
Theorem expired_assignment_grants_nothing :
  forall (s s' : Session) (user_id role_id assigned_by : uuid) (t : timestamp)
         (b : bool),
    clean s ->
    (t <= clock s)%Z ->
    assign_role user_id role_id assigned_by (Some t) s = (Return b, s') ->
    forall (who : uuid) (resource action : string) (org_id : option uuid),
      fst (check_permission who resource action org_id s')
        = fst (check_permission who resource action org_id s) /\
      fst (get_user_permissions who s') = fst (get_user_permissions who s).
Proof.
  intros s s' user_id role_id assigned_by t b Hc Ht H who resource action org_id.
  rewrite (assign_role_clean _ _ _ _ s Hc) in H. cbv zeta in H.
  destruct (user_role_violation _ _); injection H as <- <-; [split; reflexivity | ].
  destruct Hc as [Hw _].
  set (row := user_role_row (clock s) (committed s) user_id role_id assigned_by
                (Some t)).
  set (d' := set_user_roles (committed s) (user_roles (committed s) ++ [row])).
  assert (Hne : ~ effective (clock s) row).
  { intros [_ [He | (t' & He & Hlt)]]; simpl in He; [discriminate | ].
    injection He as <-. lia. }
  assert (Hback : set_user_roles d' (user_roles (committed s) ++ []) = working s).
  { rewrite app_nil_r, Hw. apply set_user_roles_back. }
  split.
  - rewrite !check_permission_runs. simpl. unfold check_permission_query.
    rewrite (filtered_join_drop_grant _ d' (user_roles (committed s)) row []
               eq_refl); [now rewrite Hback | ].
    intros u r rp p. destruct (SQL.holds _) eqn:E; [ | reflexivity].
    apply check_permission_where_iff in E. tauto.
  - unfold get_user_permissions, bind, db_execute, ret. simpl.
    unfold get_user_permissions_query.
    rewrite (filtered_join_drop_grant _ d' (user_roles (committed s)) row []
               eq_refl); [now rewrite Hback | ].
    intros u r rp p. destruct (SQL.holds _) eqn:E; [ | reflexivity].
    apply get_user_permissions_where_iff in E. tauto.
Qed.

(** Alice is granted Regular User until 999, at 1000: the call returns
    [True] and she can read no knowledge base. *)
Lemma expired_assignment_grants_nothing_witness :
  let run := assign_role 1%N 10%N 1%N (Some 999%Z) (Acme.session []) in
  fst run = Return true /\
  fst (check_permission 1%N "knowledge_base" "read" (Some Acme.org1) (snd run))
  = Return false.
Proof.
  intros run. split; [reflexivity | ].
  assert (Hc : clean (Acme.session [])) by (split; reflexivity).
  refine (eq_trans
            (proj1 (expired_assignment_grants_nothing (Acme.session []) (snd run)
                      1%N 10%N 1%N 999%Z true Hc _ _
                      1%N "knowledge_base" "read" (Some Acme.org1))) _).
  - simpl. lia.
  - reflexivity.
  - reflexivity.
Defined.

(** X8.  A grant is made once.  After [assign_role] has returned [True]
    for a user and a role, every further call for the same pair, whoever
    assigns and whatever the expiry, returns [False] and changes nothing: an
    expiry cannot be extended and a grant cannot be renewed this way. *)
Theorem assign_role_twice :
  forall (s s' : Session) (user_id role_id assigned_by : uuid)
         (expires_at : option timestamp),
    clean s ->
    assign_role user_id role_id assigned_by expires_at s = (Return true, s') ->
    forall (assigned_by' : uuid) (expires_at' : option timestamp),
      assign_role user_id role_id assigned_by' expires_at' s' = (Return false, s').
Proof.
  intros s s' user_id role_id assigned_by expires_at Hc H assigned_by' expires_at'.
  rewrite (assign_role_clean _ _ _ _ s Hc) in H. cbv zeta in H.
  destruct (user_role_violation _ _); [discriminate | ].
  injection H as <-.
  set (row := user_role_row (clock s) (committed s) user_id role_id assigned_by
                expires_at).
  set (s1 := committed_at s _).
  assert (Hc1 : clean s1) by (split; reflexivity).
  rewrite (assign_role_clean _ _ _ _ s1 Hc1). cbv zeta.
  pose proof (existing_grant_violates (clock s1) (committed s1) user_id role_id
                assigned_by' expires_at' row) as Hv.
  destruct (user_role_violation _ _); [reflexivity | ].
  exfalso. apply Hv; [ | split; reflexivity | reflexivity].
  simpl. rewrite in_app_iff. right. now left.
Qed.

Lemma assign_role_twice_witness :
  let s' := snd (assign_role 1%N 10%N 1%N (Some 2000%Z) (Acme.session [])) in
  assign_role 1%N 10%N 1%N (Some 9000%Z) s' = (Return false, s').
Proof.
  intros s'.
  assert (Hc : clean (Acme.session [])) by (split; reflexivity).
  refine (assign_role_twice (Acme.session []) s' 1%N 10%N 1%N (Some 2000%Z)
            Hc _ 1%N (Some 9000%Z)).
  reflexivity.
Defined.

(** ** More on [seed_permissions] *)

(** A missing entry is stopped by [unique_resource_action] only: its id is
    fresh and its name is not there. *)
Lemma missing_entry_violation now d perm_data c :
  find (fun p => String.eqb (p_name p) (pd_name perm_data)) (permissions d) = None ->
  permission_violation (permission_row now d perm_data) d = Some c ->
  c = "unique_resource_action".
Proof.
  intros Hf. unfold permission_violation.
  cbn [p_id p_name p_resource p_action permission_row].
  rewrite (fresh_key_not_taken p_id (permissions d)).
  assert (E : existsb (fun q => String.eqb (p_name q) (pd_name perm_data))
                (permissions d) = false).
  { destruct (existsb _ _) eqn:E; [ | reflexivity].
    apply existsb_exists in E as (q & Hq & E).
    apply (find_none _ _ Hf) in Hq. congruence. }
  rewrite E.
  destruct (existsb (fun q => andb _ _) _); cbv iota; intros H;
    [injection H as <-; reflexivity | discriminate H].
Qed.

Lemma seed_fold_raises now l d e :
  seed_fold now l d = Raise e -> e = IntegrityError "unique_resource_action".
Proof.
  revert d. induction l as [|x l IH]; cbn [seed_fold]; intros d H;
    [discriminate | ].
  destruct (find _ (permissions d)) eqn:Ef; [eauto | ].
  cbn [insert_object] in H.
  destruct (permission_violation _ _) as [c | ] eqn:Ev; [ | eauto].
  injection H as <-. f_equal. exact (missing_entry_violation _ _ _ _ Ef Ev).
Qed.

(** X9.  A run of [seed_permissions] that raises commits nothing: the
    committed database is the one before the run.  With nothing staged
    beforehand the only error it can raise is the integrity error of
    [unique_resource_action]: an entry missing by name whose (resource,
    action) pair is taken. *)
Theorem seed_permissions_raise_is_atomic :
  forall (s s1 : Session) (e : exn),
    seed_permissions s = (Raise e, s1) ->
    committed s1 = committed s /\
    (pending s = [] -> e = IntegrityError "unique_resource_action").
Proof.
  intros s s1 e H. rewrite seed_permissions_runs in H. split.
  - destruct (insert_all _ _ _) as [d0 | e0];
      [destruct (seed_fold _ _ _) as [d | e1]; [discriminate | ] | ];
      injection H as _ <-; reflexivity.
  - intros Hp. rewrite Hp in H. cbn [insert_all] in H.
    destruct (seed_fold _ _ _) as [d | e1] eqn:Ef; [discriminate | ].
    injection H as <- _. exact (seed_fold_raises _ _ _ _ Ef).
Qed.

Lemma seed_permissions_raise_is_atomic_witness :
  committed (snd (seed_permissions (fresh_session 0%Z Acme.renamed)))
  = Acme.renamed.
Proof.
  refine (proj1 (seed_permissions_raise_is_atomic
                   (fresh_session 0%Z Acme.renamed)
                   (snd (seed_permissions (fresh_session 0%Z Acme.renamed)))
                   (IntegrityError "unique_resource_action") _)).
  vm_compute. reflexivity.
Defined.

Lemma taken_iff {A B} (f : A -> B) (eqb : B -> B -> bool) (x : B) (l : list A) :
  (forall a b, eqb a b = true <-> a = b) ->
  existsb (fun q => eqb (f q) x) l = true <-> In x (map f l).
Proof.
  intros Heqb. rewrite existsb_exists, in_map_iff.
  split; intros (q & H1 & H2); exists q.
  - apply Heqb in H2. auto.
  - split; [assumption | now apply Heqb].
Qed.

Lemma key_eqb_iff (a b : string * string) :
  String.eqb (fst a) (fst b) && String.eqb (snd a) (snd b) = true <-> a = b.
Proof.
  destruct a as [a1 a2], b as [b1 b2]. simpl.
  rewrite andb_true_iff, !String.eqb_eq. intuition congruence.
Qed.

(** When the INSERT of a catalog entry is accepted. *)
Lemma permission_accepted_iff now d perm_data :
  permission_violation (permission_row now d perm_data) d = None <->
  ~ In (pd_name perm_data) (map p_name (permissions d)) /\
  ~ In (listed_pair perm_data) (map permission_key (permissions d)).
Proof.
  unfold permission_violation.
  cbn [p_id p_name p_resource p_action permission_row].
  rewrite (fresh_key_not_taken p_id (permissions d)).
  rewrite <- (taken_iff p_name String.eqb _ _ String.eqb_eq).
  rewrite <- (taken_iff permission_key
                (fun a b => String.eqb (fst a) (fst b) && String.eqb (snd a) (snd b))
                _ _ key_eqb_iff).
  unfold permission_key, listed_pair. cbn [fst snd].
  destruct (existsb (fun q => String.eqb (p_name q) _) _);
    [split; [discriminate | intros [H _]; now contradiction H] | ].
  destruct (existsb _ _);
    [split; [discriminate | intros [_ H]; now contradiction H] | ].
  split; [intros _; split; discriminate | reflexivity].
Qed.

(** The rows the seeding adds to the database [d]. *)
Lemma seed_fold_appends now l d d' :
  seed_fold now l d = Return d' ->
  users d' = users d /\ organizations d' = organizations d /\
  roles d' = roles d /\ user_roles d' = user_roles d /\
  role_permissions d' = role_permissions d /\ audit_logs d' = audit_logs d /\
  exists new,
    permissions d' = permissions d ++ new /\
    Forall (fun p =>
      (exists e, In e l /\
         p_name p = pd_name e /\ p_resource p = pd_resource e /\
         p_action p = pd_action e /\ p_description p = pd_description e) /\
      p_is_system_permission p = Some false /\
      ~ In (p_name p) (map p_name (permissions d)) /\
      ~ In (p_id p) (map p_id (permissions d))) new.
Proof.
  revert d. induction l as [|x l IH]; cbn [seed_fold]; intros d H.
  - injection H as <-. repeat split. exists []. now rewrite app_nil_r.
  - destruct (find _ (permissions d)) eqn:Ef.
    + destruct (IH d H) as (H1 & H2 & H3 & H4 & H5 & H6 & new & Hn & Hall).
      repeat split; auto. exists new. split; [assumption | ].
      eapply Forall_impl; [ | exact Hall]. cbv beta.
      intros q ((e & He & Hq) & Hrest). split; [ | assumption].
      exists e. split; [now right | assumption].
    + simpl in H.
      destruct (permission_violation _ _) eqn:Ev; [discriminate | ].
      destruct (IH _ H) as (H1 & H2 & H3 & H4 & H5 & H6 & new & Hn & Hall).
      simpl in H1, H2, H3, H4, H5, H6, Hn.
      repeat split; auto.
      exists (permission_row now d x :: new).
      split; [now rewrite Hn, <- app_assoc | ].
      constructor.
      * split; [exists x; simpl; auto | ]. split; [reflexivity | ]. split.
        -- cbn [p_name permission_row]. intros Hin.
           apply find_by_name_iff in Hin. congruence.
        -- cbn [p_id permission_row]. apply gen_random_uuid_fresh.
      * eapply Forall_impl; [ | exact Hall]. cbv beta. simpl.
        intros p ((e & He & Hp) & Hsys & Hname & Hid).
        split; [exists e; split; [now right | assumption] | ].
        split; [assumption | ].
        rewrite !map_app, !in_app_iff in *. tauto.
Qed.

(** What a completed run did to the database of the session. *)
Lemma seed_permissions_completed (s s1 : Session) :
  pending s = [] ->
  seed_permissions s = (Return tt, s1) ->
  seed_fold (clock s) DEFAULT_PERMISSIONS (working s) = Return (committed s1) /\
  working s1 = committed s1 /\ pending s1 = [] /\ clock s1 = clock s.
Proof.
  intros Hp H. rewrite seed_permissions_runs, Hp in H. cbn [insert_all] in H.
  destruct (seed_fold _ _ _) as [d | e]; [ | discriminate].
  injection H as <-. repeat split.
Qed.

(** X10.  Seeding only appends.  A completed run keeps every Permission
    row that was there, unchanged and in place (a description that differs
    from the catalog is not repaired), and adds rows only for catalog
    entries whose name was missing, with the entry's name, resource, action
    and description and [is_system_permission = false]; no other table
    changes. *)
Theorem seed_permissions_only_appends :
  forall (s s1 : Session),
    pending s = [] ->
    seed_permissions s = (Return tt, s1) ->
    (exists new,
        permissions (committed s1) = permissions (working s) ++ new /\
        Forall (fun p =>
          (exists e, In e DEFAULT_PERMISSIONS /\
             p_name p = pd_name e /\ p_resource p = pd_resource e /\
             p_action p = pd_action e /\ p_description p = pd_description e) /\
          p_is_system_permission p = Some false /\
          ~ In (p_name p) (map p_name (permissions (working s)))) new) /\
    users (committed s1) = users (working s) /\
    organizations (committed s1) = organizations (working s) /\
    roles (committed s1) = roles (working s) /\
    user_roles (committed s1) = user_roles (working s) /\
    role_permissions (committed s1) = role_permissions (working s) /\
    audit_logs (committed s1) = audit_logs (working s).
Proof.
  intros s s1 Hp H.
  destruct (seed_permissions_completed s s1 Hp H) as (Hf & _).
  destruct (seed_fold_appends _ _ _ _ Hf)
    as (H1 & H2 & H3 & H4 & H5 & H6 & new & Hn & Hall).
  repeat split; auto.
  exists new. split; [assumption | ].
  eapply Forall_impl; [ | exact Hall]. cbv beta. tauto.
Qed.

(** The tenant has knowledge_base.read and system.admin: the run adds the
    fifteen other entries behind them. *)
Lemma seed_permissions_only_appends_witness :
  let s := Acme.session [] in
  exists new,
    permissions (committed (snd (seed_permissions s)))
    = [Acme.kb_read; Acme.sys_admin] ++ new /\
    List.length new = 15%nat.
Proof.
  intros s.
  destruct (seed_permissions_only_appends s (snd (seed_permissions s)) eq_refl)
    as ((new & Hn & _) & _); [vm_compute; reflexivity | ].
  exists new. split; [exact Hn | ].
  assert (HL : List.length (permissions (committed (snd (seed_permissions s))))
               = 17%nat) by (vm_compute; reflexivity).
  rewrite Hn, length_app in HL. simpl in HL. lia.
Defined.

Lemma catalog_names_distinct : NoDup (map pd_name DEFAULT_PERMISSIONS).
Proof.
  rewrite <- (eq_refl : nodup string_dec (map pd_name DEFAULT_PERMISSIONS)
                        = map pd_name DEFAULT_PERMISSIONS).
  apply NoDup_nodup.
Qed.

Lemma catalog_pairs_distinct : NoDup (map listed_pair DEFAULT_PERMISSIONS).
Proof.
  rewrite <- (eq_refl : nodup pair_dec (map listed_pair DEFAULT_PERMISSIONS)
                        = map listed_pair DEFAULT_PERMISSIONS).
  apply NoDup_nodup.
Qed.

(** When the seeding of the entries [l] goes through on the database [d]. *)
Lemma seed_fold_completes_iff now l d :
  NoDup (map pd_name l) -> NoDup (map listed_pair l) ->
  ((exists d', seed_fold now l d = Return d') <->
   (forall e, In e l ->
      ~ In (pd_name e) (map p_name (permissions d)) ->
      ~ In (listed_pair e) (map permission_key (permissions d)))).
Proof.
  revert d. induction l as [|x l IH]; cbn [seed_fold map]; intros d Hn Hk.
  - split; [intros _ e [] | eauto].
  - inversion Hn as [|? ? Hxn Hn']; inversion Hk as [|? ? Hxk Hk']; subst.
    destruct (find _ (permissions d)) eqn:Ef.
    + assert (Hx : In (pd_name x) (map p_name (permissions d)))
        by (apply find_by_name_iff; congruence).
      rewrite (IH d Hn' Hk'). split.
      * intros H e [<- | He]; [now intros Hc | now apply H].
      * intros H e He. apply H. now right.
    + assert (Hx : ~ In (pd_name x) (map p_name (permissions d))).
      { intros Hin. apply find_by_name_iff in Hin. congruence. }
      cbn [insert_object].
      destruct (permission_violation (permission_row now d x) d) eqn:Ev.
      * split; [intros (d' & H); discriminate | ].
        intros H. exfalso.
        assert (Hacc : permission_violation (permission_row now d x) d = None).
        { apply permission_accepted_iff. split; [assumption | ].
          apply H; [now left | assumption]. }
        congruence.
      * apply permission_accepted_iff in Ev as [_ Hxk'].
        rewrite (IH _ Hn' Hk'). cbn [permissions set_permissions].
        rewrite !map_app. cbn [map p_name permission_key permission_row
                                 p_resource p_action].
        change (permission_key (permission_row now d x)) with (listed_pair x).
        split.
        -- intros H e [<- | He]; [intros _; exact Hxk' | ].
           intros Hen Hek. apply (H e He).
           ++ rewrite in_app_iff. intros [Hc | [Hc | []]]; [now apply Hen | ].
              apply Hxn. rewrite Hc. now apply in_map.
           ++ rewrite in_app_iff. now left.
        -- intros H e He Hen. rewrite in_app_iff.
           intros [Hc | [Hc | []]].
           ++ apply (H e); [now right | | assumption].
              intros Hc'. apply Hen. rewrite in_app_iff. now left.
           ++ apply Hxk. rewrite Hc. now apply in_map.
Qed.

(** X11.  When seeding goes through.  On a session with nothing staged,
    [seed_permissions] completes exactly when no catalog entry that is
    missing by name finds its (resource, action) pair already in the
    Permission table; otherwise it raises. *)
Theorem seed_permissions_completes_iff :
  forall s : Session,
    pending s = [] ->
    ((exists s1, seed_permissions s = (Return tt, s1)) <->
     (forall e, In e DEFAULT_PERMISSIONS ->
        ~ In (pd_name e) (map p_name (permissions (working s))) ->
        ~ In (listed_pair e) (map permission_key (permissions (working s))))).
Proof.
  intros s Hp.
  rewrite <- (seed_fold_completes_iff (clock s) DEFAULT_PERMISSIONS (working s)
                catalog_names_distinct catalog_pairs_distinct).
  rewrite seed_permissions_runs, Hp. cbn [insert_all].
  destruct (seed_fold _ _ _) as [d | e].
  - split; eauto.
  - split; intros (x & H); discriminate.
Qed.

(** The tenant holds knowledge_base.read and system.admin under their
    catalog names: seeding it completes. *)
Lemma seed_permissions_completes_iff_witness :
  exists s1, seed_permissions (Acme.session []) = (Return tt, s1).
Proof.
  apply (proj2 (seed_permissions_completes_iff (Acme.session []) eq_refl)).
  intros e He Hname Hpair. apply Hname. clear Hname.
  simpl in Hpair. destruct Hpair as [Hp | [Hp | []]];
    repeat (destruct He as [<- | He]; [try discriminate Hp; simpl; tauto | ]);
    destruct He.
Defined.

Lemma flat_map_ext_on {A B} (f g : A -> list B) (l : list A) :
  (forall a, In a l -> f a = g a) -> flat_map f l = flat_map g l.
Proof.
  induction l as [|x l IH]; simpl; intros H; [reflexivity | ].
  rewrite (H x) by now left. f_equal. apply IH. intros a Ha. apply H. now right.
Qed.

(** Permission rows that no link points to do not show in the join. *)
Lemma rbac_join_unlinked_permissions d new :
  (forall rp p, In rp (role_permissions d) -> In p new ->
                rp_permission_id rp <> Some (p_id p)) ->
  rbac_join (set_permissions d (permissions d ++ new)) = rbac_join d.
Proof.
  intros Hnew. unfold rbac_join. cbn [users user_roles roles role_permissions
                                      permissions set_permissions].
  apply flat_map_ext. intros u.
  apply flat_map_ext. intros ur.
  apply flat_map_ext. intros r.
  apply flat_map_ext_on. intros rp Hrp. f_equal.
  apply in_matching in Hrp as [Hrp _].
  unfold matching. rewrite filter_app.
  rewrite (filter_none _ new); [apply app_nil_r | ].
  intros p Hp. destruct (SQL.holds _) eqn:E; [ | reflexivity].
  apply holds_eq3_N in E as (k & E1 & E2).
  exfalso. apply (Hnew rp p Hrp Hp). congruence.
Qed.

Lemma set_permissions_same d d' l :
  users d' = users d -> organizations d' = organizations d ->
  roles d' = roles d -> user_roles d' = user_roles d ->
  role_permissions d' = role_permissions d -> audit_logs d' = audit_logs d ->
  permissions d' = l -> d' = set_permissions d l.
Proof.
  destruct d, d'. simpl. intros. subst. reflexivity.
Qed.

(** X12.  Seeding gives nobody anything.  On a session with nothing staged
    whose links all point to existing permissions (the foreign key of
    [role_permissions.permission_id]), a completed run of
    [seed_permissions] changes no answer of [check_permission] and no
    listing of [get_user_permissions]: the new permissions are attached to
    no role. *)
Theorem seeding_grants_nothing :
  forall (s s1 : Session),
    pending s = [] ->
    (forall rp k, In rp (role_permissions (working s)) ->
                  rp_permission_id rp = Some k ->
                  In k (map p_id (permissions (working s)))) ->
    seed_permissions s = (Return tt, s1) ->
    forall (user_id : uuid) (resource action : string) (org_id : option uuid),
      fst (check_permission user_id resource action org_id s1)
        = fst (check_permission user_id resource action org_id s) /\
      fst (get_user_permissions user_id s1) = fst (get_user_permissions user_id s).
Proof.
  intros s s1 Hp Hfk H user_id resource action org_id.
  destruct (seed_permissions_completed s s1 Hp H) as (Hf & Hw & _ & Hclock).
  destruct (seed_fold_appends _ _ _ _ Hf)
    as (H1 & H2 & H3 & H4 & H5 & H6 & new & Hn & Hall).
  assert (Hjoin : rbac_join (working s1) = rbac_join (working s)).
  { rewrite Hw.
    rewrite (set_permissions_same (working s) (committed s1) _ H1 H2 H3 H4 H5 H6 Hn).
    apply rbac_join_unlinked_permissions.
    intros rp p Hrp Hin E.
    rewrite Forall_forall in Hall.
    destruct (Hall p Hin) as (_ & _ & _ & Hid).
    apply Hid. now apply (Hfk rp). }
  split.
  - rewrite !check_permission_runs. simpl. unfold check_permission_query.
    now rewrite Hjoin, Hclock.
  - unfold get_user_permissions, bind, db_execute, ret. simpl.
    unfold get_user_permissions_query. now rewrite Hjoin, Hclock.
Qed.

(** After seeding the tenant Alice still has no system.admin. *)
Lemma seeding_grants_nothing_witness :
  let s := Acme.session [Acme.alice_regular] in
  fst (check_permission 1%N "system" "admin" (Some Acme.org1)
         (snd (seed_permissions s)))
  = Return false.
Proof.
  intros s.
  refine (eq_trans
            (proj1 (seeding_grants_nothing s (snd (seed_permissions s)) eq_refl
                      _ _ 1%N "system" "admin" (Some Acme.org1))) _).
  - intros rp k [<- | [<- | []]] E; injection E as <-; simpl; auto.
  - vm_compute. reflexivity.
  - reflexivity.
Defined.

(** ** [require_any_permission] *)

(** The checks of [any(...)] run in order and change nothing; the answer is
    whether some pair is allowed. *)
Lemma any_permission_runs current_user perms s :
  any_permission current_user perms s =
  (Return (existsb (fun '(resource, action) =>
             (0 <? check_permission_query (u_id current_user) resource action
                     (u_organization_id current_user) (clock s) (working s))%nat)
           perms), s).
Proof.
  induction perms as [|[resource action] rest IH]; [reflexivity | ].
  cbn [any_permission existsb]. unfold bind.
  rewrite check_permission_runs.
  destruct (0 <? _)%nat; [reflexivity | exact IH].
Qed.

(** X13.  [require_any_permission] lets the handler run as soon as one of
    the listed pairs is allowed to the user in the user's own organization,
    and when none is (in particular for the empty list) it raises 403
    Forbidden, naming all the pairs, and leaves the session as it was; [str]
    is Python's formatting of the list. *)
Theorem require_any_permission_decides :
  forall (str : list string -> string) (A : Type)
         (perms : list (string * string)) (func : M A) (current_user : User)
         (s : Session),
    ((exists resource action,
         In (resource, action) perms /\
         check_permission (u_id current_user) resource action
           (u_organization_id current_user) s = (Return true, s)) ->
     require_any_permission str perms func current_user s = func s) /\
    ((forall resource action,
         In (resource, action) perms ->
         check_permission (u_id current_user) resource action
           (u_organization_id current_user) s = (Return false, s)) ->
     require_any_permission str perms func current_user s =
     (Raise (HTTPException 403
               ("Insufficient permissions. Required any of: "
                ++ str (map (fun '(r, a) => (r ++ "." ++ a)%string) perms))%string),
      s)).
Proof.
  intros str A perms func current_user s.
  unfold require_any_permission, bind. rewrite any_permission_runs. split.
  - intros (resource & action & Hin & H).
    rewrite check_permission_runs in H. injection H as H.
    assert (E : existsb (fun '(resource, action) =>
                  (0 <? check_permission_query (u_id current_user) resource action
                          (u_organization_id current_user) (clock s) (working s))%nat)
                perms = true).
    { apply existsb_exists. exists (resource, action). auto. }
    rewrite E. reflexivity.
  - intros Hnone.
    assert (E : existsb (fun '(resource, action) =>
                  (0 <? check_permission_query (u_id current_user) resource action
                          (u_organization_id current_user) (clock s) (working s))%nat)
                perms = false).
    { destruct (existsb _ perms) eqn:E; [ | reflexivity].
      apply existsb_exists in E as ([resource action] & Hin & E).
      specialize (Hnone resource action Hin).
      rewrite check_permission_runs in Hnone. congruence. }
    rewrite E. reflexivity.
Qed.

(** Alice is no admin but reads knowledge bases: the handler runs. *)
Lemma require_any_permission_decides_witness :
  require_any_permission (String.concat ", ")
    [("system", "admin"); ("knowledge_base", "read")] (ret 7%nat) Acme.alice
    (Acme.session [Acme.alice_regular])
  = (Return 7%nat, Acme.session [Acme.alice_regular]).
Proof.
  refine (proj1 (require_any_permission_decides (String.concat ", ") nat
                   [("system", "admin"); ("knowledge_base", "read")] (ret 7%nat)
                   Acme.alice (Acme.session [Acme.alice_regular])) _).
  exists "knowledge_base", "read". split; [simpl; auto | reflexivity].
Defined.

(** ** [require_organization_access] *)

Lemma py_ne_false_iff a b : py_ne a b = false <-> a = b.
Proof.
  destruct a as [x|], b as [y|]; simpl; split; try congruence.
  - rewrite negb_false_iff, N.eqb_eq. congruence.
  - intros H. injection H as ->. now rewrite N.eqb_refl.
Qed.

(** X14.  [require_organization_access] asks nothing when the handler has
    no organization argument or the argument is the user's organization.
    For any other organization the handler runs exactly when the user is
    allowed (system, admin) with no organization given, so through any
    effective role that carries the permission, system role or not;
    otherwise 403 Forbidden is raised and the session is as before. *)
Theorem require_organization_access_decides :
  forall (A : Type) (func : M A) (current_user : User)
         (organization_id : option uuid) (s : Session),
    ((organization_id = None \/
      organization_id = u_organization_id current_user) ->
     require_organization_access func current_user organization_id s = func s) /\
    (forall o,
        organization_id = Some o ->
        u_organization_id current_user <> Some o ->
        ((forall u ur r rp p,
             u_id u = u_id current_user -> u_is_active u = Some true ->
             grant_of (working s) u ur r -> effective (clock s) ur ->
             link_of (working s) r rp p ->
             p_resource p = "system" -> p_action p = "admin" ->
             require_organization_access func current_user organization_id s
               = func s) /\
         (check_permission (u_id current_user) "system" "admin" None s
            = (Return false, s) ->
          require_organization_access func current_user organization_id s
            = (Raise (HTTPException 403 "Access denied: Organization mismatch"),
               s)))).
Proof.
  intros A func current_user organization_id s. split.
  - unfold require_organization_access.
    intros [-> | ->]; [reflexivity | ].
    destruct (u_organization_id current_user) as [o|] eqn:E; [ | reflexivity].
    now rewrite (proj2 (py_ne_false_iff (Some o) (Some o)) eq_refl).
  - intros o -> Hne.
    assert (Hmis : py_ne (u_organization_id current_user) (Some o) = true).
    { destruct (py_ne _ _) eqn:E; [reflexivity | ].
      apply py_ne_false_iff in E. contradiction. }
    unfold require_organization_access. rewrite Hmis. unfold bind. split.
    + intros u ur r rp p Hid Hact Hg He Hl Hres Hac.
      assert (H : check_permission (u_id current_user) "system" "admin" None s
                  = (Return true, s)).
      { apply check_permission_true_iff. exists u, ur, r, rp, p.
        unfold allowing_path, org_passes. tauto. }
      rewrite H. reflexivity.
    + intros H. rewrite H. reflexivity.
Qed.

(** Alice (organization 100) asks for organization 200 without system.admin. *)
Lemma require_organization_access_decides_witness :
  require_organization_access (ret 7%nat) Acme.alice (Some Acme.org2)
    (Acme.session [Acme.alice_regular])
  = (Raise (HTTPException 403 "Access denied: Organization mismatch"),
     Acme.session [Acme.alice_regular]).
Proof.
  refine (proj2 (proj2 (require_organization_access_decides nat (ret 7%nat)
                          Acme.alice (Some Acme.org2)
                          (Acme.session [Acme.alice_regular]))
                   Acme.org2 eq_refl _) _).
  - discriminate.
  - reflexivity.
Defined.

(** ** The endpoint [get_knowledge_base] *)

Lemma db_query_first_nothing_staged {A} (table : database -> list A)
    (c : A -> bool) (s : Session) :
  pending s = [] ->
  db_query_first table c s = (Return (find c (table (working s))), s).
Proof.
  destruct s as [cm w p k]. simpl. intros ->. reflexivity.
Qed.

Lemma column_eq_iff column value :
  SQL.holds (column_eq column value) = true <-> column = value.
Proof.
  unfold column_eq. destruct value as [v|].
  - rewrite holds_eq3_N. split.
    + intros (k & -> & E). congruence.
    + intros ->. eauto.
  - destruct column; simpl; split; congruence.
Qed.

(** X15.  [get_knowledge_base] isolates tenants.  With nothing staged in
    the session: it returns a knowledge base only when the user is allowed
    (knowledge_base, read), the row has the asked id and its organization is
    the user's (both may be null); an allowed user asking for a knowledge
    base of another organization gets 404 Not Found, as for a missing one;
    a user who is not allowed gets 403 Forbidden whatever exists.  The
    session is never changed. *)
Theorem get_knowledge_base_isolates_tenants :
  forall (knowledge_bases : list KnowledgeBase) (id : uuid)
         (current_user : User) (s : Session),
    pending s = [] ->
    (forall kb s',
        get_knowledge_base knowledge_bases id current_user s = (Return kb, s') ->
        s' = s /\ In kb knowledge_bases /\ kb_id kb = id /\
        kb_organization_id kb = u_organization_id current_user /\
        check_permission (u_id current_user) "knowledge_base" "read"
          (u_organization_id current_user) s = (Return true, s)) /\
    (check_permission (u_id current_user) "knowledge_base" "read"
       (u_organization_id current_user) s = (Return true, s) ->
     (forall kb, In kb knowledge_bases -> kb_id kb = id ->
                 kb_organization_id kb <> u_organization_id current_user) ->
     get_knowledge_base knowledge_bases id current_user s
       = (Raise (HTTPException 404 "Knowledge base not found"), s)) /\
    (check_permission (u_id current_user) "knowledge_base" "read"
       (u_organization_id current_user) s = (Return false, s) ->
     get_knowledge_base knowledge_bases id current_user s
       = (Raise (HTTPException 403
                   "Insufficient permissions: knowledge_base.read"), s)).
Proof.
  intros knowledge_bases id current_user s Hp.
  unfold get_knowledge_base, require_permission, bind.
  rewrite check_permission_runs.
  destruct (0 <? _)%nat eqn:Eallowed; cbn [negb].
  - rewrite (db_query_first_nothing_staged _ _ s Hp).
    destruct (find _ knowledge_bases) as [kb0|] eqn:Ef.
    + split; [ | split].
      * intros kb s' H. injection H as <- <-.
        apply find_some in Ef as [Hin Hc].
        rewrite holds_and3, andb_true_iff, holds_eq3_N, column_eq_iff in Hc.
        destruct Hc as [(k & E1 & E2) Horg].
        repeat split; auto; congruence.
      * intros _ Hother. exfalso.
        apply find_some in Ef as [Hin Hc].
        rewrite holds_and3, andb_true_iff, holds_eq3_N, column_eq_iff in Hc.
        destruct Hc as [(k & E1 & E2) Horg].
        apply (Hother kb0 Hin); congruence.
      * discriminate.
    + split; [ | split]; [intros kb s' H; discriminate H | reflexivity | discriminate].
  - split; [ | split]; [intros kb s' H; discriminate H | discriminate | reflexivity].
Qed.

(** Alice may read knowledge bases; the one she asks for belongs to
    organization 200. *)
Lemma get_knowledge_base_isolates_tenants_witness :
  get_knowledge_base
    [ {| kb_id := 500%N; kb_name := "Handbook";
         kb_organization_id := Some Acme.org2 |} ]
    500%N Acme.alice (Acme.session [Acme.alice_regular])
  = (Raise (HTTPException 404 "Knowledge base not found"),
     Acme.session [Acme.alice_regular]).
Proof.
  refine (proj1 (proj2 (get_knowledge_base_isolates_tenants _ 500%N Acme.alice
                          (Acme.session [Acme.alice_regular]) eq_refl)) _ _).
  - reflexivity.
  - intros kb [<- | []] _. discriminate.
Defined.

(** ** The frontend guards and the backend *)

Lemma hasPermission_listed l loading resource action :
  Frontend.hasPermission
    {| Frontend.user := Some {| Frontend.permissions := Some l |};
       Frontend.isLoading := loading |} resource action = true <->
  exists pd, In pd l /\ pd_resource pd = resource /\ pd_action pd = action.
Proof.
  unfold Frontend.hasPermission, Frontend.user_permissions. simpl.
  rewrite existsb_exists. split; intros (pd & Hin & H); exists pd.
  - apply andb_true_iff in H as [H1 H2].
    apply String.eqb_eq in H1, H2. auto.
  - destruct H as [<- <-]. now rewrite !String.eqb_refl.
Qed.

Lemma listed_pair_iff user_id now d resource action :
  (exists pd, In pd (get_user_permissions_query user_id now d) /\
              pd_resource pd = resource /\ pd_action pd = action) <->
  exists u ur r rp p,
    grant_of d u ur r /\ link_of d r rp p /\ u_id u = user_id /\
    u_is_active u = Some true /\ effective now ur /\
    p_resource p = resource /\ p_action p = action.
Proof.
  split.
  - intros (pd & Hin & <- & <-).
    apply listed_iff in Hin as (u & ur & r & rp & p & H1 & H2 & H3 & H4 & H5 & ->).
    exists u, ur, r, rp, p. simpl. tauto.
  - intros (u & ur & r & rp & p & H1 & H2 & H3 & H4 & H5 & <- & <-).
    exists (select_permission (u, ur, r, rp, p)). split; [ | split; reflexivity].
    apply listed_iff. exists u, ur, r, rp, p. tauto.
Qed.

(** The hook over the listing of a user row answers as the check made in
    the user's own organization. *)
Lemma hasPermission_agrees s u loading resource action :
  NoDup (map u_id (users (working s))) ->
  In u (users (working s)) ->
  Frontend.hasPermission
    {| Frontend.user :=
         Some {| Frontend.permissions :=
                   Some (get_user_permissions_query (u_id u) (clock s) (working s)) |};
       Frontend.isLoading := loading |} resource action = true <->
  check_permission (u_id u) resource action (u_organization_id u) s
    = (Return true, s).
Proof.
  intros Hpk Hu.
  rewrite hasPermission_listed, listed_pair_iff, check_permission_true_iff.
  split.
  - intros (u' & ur & r & rp & p & Hg & Hlk & Hid & H).
    assert (u' = u) as ->.
    { apply (same_key_same_row u_id (users (working s))); auto. apply Hg. }
    exists u, ur, r, rp, p. unfold allowing_path.
    pose proof (own_org_passes u r). tauto.
  - intros (u' & ur & r & rp & p & H). unfold allowing_path in H.
    exists u', ur, r, rp, p. tauto.
Qed.

(** X16.  The frontend guard agrees with the backend decorator.  When the
    permissions of the signed-in user are the list [get_user_permissions]
    returns for a user row [u] ([users.id] being a key), [hasPermission]
    says yes exactly when [check_permission] allows the pair in the user's
    own organization, that is when [require_permission] would let the
    handler run; and [ProtectedRoute] and [ProtectedComponent] show their
    children exactly then, once loading is over. *)
Theorem frontend_guard_agrees_with_backend :
  forall (s : Session) (u : User) (l : list permission_dict) (loading : bool)
         (resource action : string),
    NoDup (map u_id (users (working s))) ->
    In u (users (working s)) ->
    get_user_permissions (u_id u) s = (Return l, s) ->
    let auth := {| Frontend.user := Some {| Frontend.permissions := Some l |};
                   Frontend.isLoading := loading |} in
    (Frontend.hasPermission auth resource action = true <->
     check_permission (u_id u) resource action (u_organization_id u) s
       = (Return true, s)) /\
    (forall (node : Type) (children : node) (redirectTo : string),
        Frontend.ProtectedRoute auth resource action children redirectTo
          = Frontend.Fragment children <->
        loading = false /\
        check_permission (u_id u) resource action (u_organization_id u) s
          = (Return true, s)) /\
    (forall (node : Type) (children : node) (fallback : option node)
            (showFallback : bool),
        Frontend.ProtectedComponent auth resource action children fallback
          showFallback = Frontend.Fragment children <->
        loading = false /\
        check_permission (u_id u) resource action (u_organization_id u) s
          = (Return true, s)).
Proof.
  intros s u l loading resource action Hpk Hu Hl auth.
  assert (El : l = get_user_permissions_query (u_id u) (clock s) (working s))
    by (injection Hl; auto).
  assert (Hagree : Frontend.hasPermission auth resource action = true <->
            check_permission (u_id u) resource action (u_organization_id u) s
              = (Return true, s)).
  { unfold auth. rewrite El. now apply hasPermission_agrees. }
  split; [exact Hagree | split].
  - intros node children redirectTo. rewrite <- Hagree.
    unfold Frontend.ProtectedRoute. cbn [Frontend.isLoading auth].
    destruct loading; [split; [discriminate | intros [H _]; discriminate] | ].
    destruct (Frontend.hasPermission auth resource action);
      cbn [negb]; split; auto; try discriminate.
    intros [_ H]. discriminate.
  - intros node children fallback showFallback. rewrite <- Hagree.
    unfold Frontend.ProtectedComponent. cbn [Frontend.isLoading auth].
    destruct loading; [split; [discriminate | intros [H _]; discriminate] | ].
    destruct (Frontend.hasPermission auth resource action);
      cbn [negb]; split; auto; try discriminate.
    intros [_ H]. discriminate.
Qed.

Lemma frontend_guard_agrees_with_backend_witness :
  let s := Acme.session [Acme.alice_regular] in
  let l := get_user_permissions_query 1%N (clock s) (working s) in
  get_user_permissions 1%N s = (Return l, s) /\
  Frontend.hasPermission
    {| Frontend.user := Some {| Frontend.permissions := Some l |};
       Frontend.isLoading := false |} "system" "admin" = false.
Proof.
  intros s l. split; [reflexivity | ].
  assert (Hpk : NoDup (map u_id (users (working s))))
    by (simpl; constructor; [intros [] | constructor]).
  assert (Hin : In Acme.alice (users (working s))) by (simpl; now left).
  pose proof (proj1 (frontend_guard_agrees_with_backend s Acme.alice l false
                       "system" "admin" Hpk Hin eq_refl)) as H.
  destruct (Frontend.hasPermission _ "system" "admin"); [ | reflexivity].
  destruct H as [H _]. specialize (H eq_refl). discriminate H.
Defined.

(** X17.  [hasAnyPermission] of the frontend agrees with
    [require_any_permission] of the backend.  Over the list
    [get_user_permissions] returns for a user row ([users.id] being a key),
    [hasAnyPermission] says yes exactly when [require_any_permission] lets
    the handler run, and no exactly when it raises 403 Forbidden. *)
Theorem frontend_any_agrees_with_backend :
  forall (str : list string -> string) (A : Type) (s : Session) (u : User)
         (l : list permission_dict) (loading : bool)
         (perms : list (string * string)) (func : M A),
    NoDup (map u_id (users (working s))) ->
    In u (users (working s)) ->
    get_user_permissions (u_id u) s = (Return l, s) ->
    let auth := {| Frontend.user := Some {| Frontend.permissions := Some l |};
                   Frontend.isLoading := loading |} in
    (Frontend.hasAnyPermission auth perms = true ->
     require_any_permission str perms func u s = func s) /\
    (Frontend.hasAnyPermission auth perms = false ->
     require_any_permission str perms func u s =
     (Raise (HTTPException 403
               ("Insufficient permissions. Required any of: "
                ++ str (map (fun '(r, a) => (r ++ "." ++ a)%string) perms))%string),
      s)).
Proof.
  intros str A s u l loading perms func Hpk Hu Hl auth.
  assert (El : l = get_user_permissions_query (u_id u) (clock s) (working s))
    by (injection Hl; auto).
  assert (Hsame : Frontend.hasAnyPermission auth perms =
            existsb (fun '(resource, action) =>
              (0 <? check_permission_query (u_id u) resource action
                      (u_organization_id u) (clock s) (working s))%nat) perms).
  { unfold Frontend.hasAnyPermission. clear func.
    induction perms as [|[resource action] rest IH]; [reflexivity | ].
    cbn [existsb]. rewrite IH. f_equal.
    apply eq_true_iff_eq. unfold auth. rewrite El.
    rewrite (hasPermission_agrees s u loading resource action Hpk Hu).
    rewrite check_permission_runs.
    split; [intros H; injection H; auto | intros ->; reflexivity]. }
  unfold require_any_permission, bind.
  rewrite any_permission_runs, <- Hsame.
  split; intros ->; reflexivity.
Qed.

Lemma frontend_any_agrees_with_backend_witness :
  let s := Acme.session [Acme.alice_regular] in
  require_any_permission (String.concat ", ")
    [("system", "admin"); ("knowledge_base", "read")] (ret 7%nat) Acme.alice s
  = (Return 7%nat, s).
Proof.
  intros s.
  assert (Hpk : NoDup (map u_id (users (working s))))
    by (simpl; constructor; [intros [] | constructor]).
  assert (Hin : In Acme.alice (users (working s))) by (simpl; now left).
  refine (proj1 (frontend_any_agrees_with_backend (String.concat ", ") nat s
                   Acme.alice _ false
                   [("system", "admin"); ("knowledge_base", "read")] (ret 7%nat)
                   Hpk Hin eq_refl) _).
  reflexivity.
Defined.
